(** * notion-claude-integration: the note formatter and the note-taking calls

    A shallow embedding of [src/notion_integration.py] (class
    [NotionIntegration]): the Python string built-ins the class relies on,
    the block formatter [_format_notes_as_blocks], and the two calls that
    build a page request, [create_page_with_notes] and [quick_note]. *)

From Stdlib Require Import ZArith List String Ascii Bool Lia.
Import ListNotations.
Open Scope string_scope.

(** ** Python built-ins *)

Module Py.

(** The exceptions the modelled code can meet. *)
Inductive exn : Type :=
| ValueError (msg : string)
| KeyError (key : string)
| JSONDecodeError.

(** A computation either returns or raises. *)
Inductive result (A : Type) : Type :=
| Ok (a : A)
| Raise (e : exn).
Arguments Ok {A} a.
Arguments Raise {A} e.

Definition bind {A B : Type} (m : result A) (k : A -> result B) : result B :=
  match m with
  | Ok a => k a
  | Raise e => Raise e
  end.

(** [for x in xs: acc = body(acc, x)], stopping at the first exception. *)
Fixpoint for_each {A S : Type} (xs : list A) (acc : S)
         (body : S -> A -> result S) : result S :=
  match xs with
  | [] => Ok acc
  | x :: xs' => bind (body acc x) (fun acc' => for_each xs' acc' body)
  end.

(** Characters are code points below 256; ["\n"] is code 10. *)
Definition LF : ascii := ascii_of_nat 10.
Definition nl : string := String LF EmptyString.

(** [str.isspace] on one character: the code points below 256 that
    Python classes as whitespace (TAB..CR, FS..US, SPACE, NEL, NBSP). *)
Definition isspace (c : ascii) : bool :=
  let n := nat_of_ascii c in
  (Nat.leb 9 n && Nat.leb n 13) || (Nat.leb 28 n && Nat.leb n 32)
  || Nat.eqb n 133 || Nat.eqb n 160.

Fixpoint mem_char (c : ascii) (chars : string) : bool :=
  match chars with
  | EmptyString => false
  | String d chars' => Ascii.eqb c d || mem_char c chars'
  end.

(** Removal of a leading, respectively trailing, run of characters. *)
Fixpoint lstrip_by (p : ascii -> bool) (s : string) : string :=
  match s with
  | EmptyString => EmptyString
  | String c s' => if p c then lstrip_by p s' else s
  end.

Fixpoint rstrip_by (p : ascii -> bool) (s : string) : string :=
  match s with
  | EmptyString => EmptyString
  | String c s' =>
      match rstrip_by p s' with
      | EmptyString => if p c then EmptyString else String c EmptyString
      | r => String c r
      end
  end.

Definition strip_by (p : ascii -> bool) (s : string) : string :=
  rstrip_by p (lstrip_by p s).

(** [s.strip()], [s.strip(chars)], [s.lstrip(chars)]. *)
Definition strip (s : string) : string := strip_by isspace s.
Definition strip_chars (s chars : string) : string :=
  strip_by (fun c => mem_char c chars) s.
Definition lstrip_chars (s chars : string) : string :=
  lstrip_by (fun c => mem_char c chars) s.

(** [s.startswith(p)] and [s.startswith((p1, p2, ...))]. *)
Fixpoint startswith (s p : string) {struct p} : bool :=
  match p, s with
  | EmptyString, _ => true
  | String _ _, EmptyString => false
  | String a p', String b s' => Ascii.eqb b a && startswith s' p'
  end.
Definition startswith_any (s : string) (ps : list string) : bool :=
  existsb (startswith s) ps.

(** [len(s)], [s[n:]], [s[:n]]. *)
Definition len (s : string) : Z := Z.of_nat (String.length s).

Fixpoint slice_from (n : nat) (s : string) : string :=
  match n, s with
  | O, _ => s
  | S _, EmptyString => EmptyString
  | S k, String _ s' => slice_from k s'
  end.

Fixpoint slice_to (n : nat) (s : string) : string :=
  match n, s with
  | O, _ => EmptyString
  | S _, EmptyString => EmptyString
  | S k, String c s' => String c (slice_to k s')
  end.

(** Truth value of a string: non-empty. *)
Definition truthy (s : string) : bool :=
  match s with
  | EmptyString => false
  | String _ _ => true
  end.

(** The pieces of [s] between the leftmost non-overlapping occurrences of
    a non-empty [sep]; [skip] counts the characters of a separator still
    to be passed over. *)
Fixpoint split_pieces (sep : string) (skip : nat) (s : string) : list string :=
  match s with
  | EmptyString => [EmptyString]
  | String c s' =>
      match skip with
      | S k => split_pieces sep k s'
      | O =>
          if startswith s sep
          then EmptyString :: split_pieces sep (String.length sep - 1) s'
          else match split_pieces sep 0 s' with
               | p :: ps => String c p :: ps
               | [] => [String c EmptyString]
               end
      end
  end.

(** [s.split(sep)]: an empty separator is a [ValueError]. *)
Definition split (s sep : string) : result (list string) :=
  match sep with
  | EmptyString => Raise (ValueError "empty separator")
  | String _ _ => Ok (split_pieces sep 0 s)
  end.

(** One decimal digit, and a number on [w] digits with leading zeros, as
    [%Y] (four digits), [%m], [%d], [%H] and [%M] (two digits) print the
    fields of a [datetime]. *)
Definition digit (d : Z) : ascii := ascii_of_nat (48 + Z.to_nat (d mod 10)).

Fixpoint zero_padded (w : nat) (n : Z) : string :=
  match w with
  | O => EmptyString
  | S w' => zero_padded w' (n / 10) ++ String (digit n) EmptyString
  end.

(** [str(n)]: the decimal digits of [n], with a sign when it is negative;
    [n + 1] steps are always enough for the digits of [n]. *)
Fixpoint str_digits (fuel : nat) (n : Z) : string :=
  match fuel with
  | O => EmptyString
  | S fuel' =>
      if (n <? 10)%Z then String (digit n) EmptyString
      else str_digits fuel' (n / 10) ++ String (digit n) EmptyString
  end.

Definition str (n : Z) : string :=
  if (n <? 0)%Z then "-" ++ str_digits (S (Z.to_nat (- n))) (- n)
  else str_digits (S (Z.to_nat n)) n.

(** A [datetime] value; [datetime.now()] returns one read off the system
    clock, with a four-digit year. *)
Record datetime : Type := mkDatetime {
  year : Z; month : Z; day : Z;
  hour : Z; minute : Z; second : Z; microsecond : Z
}.

(** [dt.strftime('%Y-%m-%d %H:%M')]. *)
Definition strftime_Ymd_HM (dt : datetime) : string :=
  zero_padded 4 (year dt) ++ "-" ++ zero_padded 2 (month dt) ++ "-"
  ++ zero_padded 2 (day dt) ++ " " ++ zero_padded 2 (hour dt) ++ ":"
  ++ zero_padded 2 (minute dt).

End Py.

Import Py.

Notation "x <- m ;; k" := (bind m (fun x => k))
  (at level 61, m at next level, right associativity).

(** ** Blocks *)

(** A block as the formatter builds it:
    [{"object": "block", "type": t, t: {"rich_text": [{"type": "text",
    "text": {"content": c}}]}}]. *)
Record block : Type := mkBlock {
  object : string;
  type : string;
  content : string
}.

Definition text_block (t c : string) : block :=
  {| object := "block"; type := t; content := c |}.

(** The three kinds of block, named as the specification names them. *)
Definition Heading (level : Z) (text : string) : block :=
  text_block ("heading_" ++ str level) text.
Definition BulletItem (text : string) : block :=
  text_block "bulleted_list_item" text.
Definition Paragraph (text : string) : block :=
  text_block "paragraph" text.

(** ** The formatter *)

(** Body of [for line in lines] (lines 106-117). *)
Definition format_line (blocks : list block) (line : string)
  : result (list block) :=
  if startswith_any (strip line) ["- "; "* "]
  then Ok (blocks ++ [text_block "bulleted_list_item"
                                 (slice_from 2 (strip line))])%list
  else Ok blocks.

(** Body of [for para in paragraphs] (lines 100-143). *)
Definition format_paragraph (blocks : list block) (para : string)
  : result (list block) :=
  if truthy (strip para) then
    if startswith (strip para) "- " || startswith (strip para) "* " then
      lines <- split (strip para) nl ;;
      for_each lines blocks format_line
    else if startswith (strip para) "#" then
      let level := (len para - len (lstrip_chars para "#"))%Z in
      let heading_type := "heading_" ++ str (Z.min level 3) in
      Ok (blocks ++ [text_block heading_type
                                (strip (strip_chars para "#"))])%list
    else
      Ok (blocks ++ [text_block "paragraph" (strip para)])%list
  else Ok blocks.

(** [_format_notes_as_blocks(self, notes)]; [now] is the value
    [datetime.now()] returns when line 92 runs. *)
Definition _format_notes_as_blocks (now : datetime) (notes : string)
  : result (list block) :=
  let blocks := [] in
  let blocks :=
    (blocks ++ [text_block "heading_3"
                  ("Created by Claude Code - " ++ strftime_Ymd_HM now)])%list in
  paragraphs <- split (strip notes) (nl ++ nl) ;;
  for_each paragraphs blocks format_paragraph.

(** ** The HTTP collaborator and the clock *)

(** One entry [{"name": tag}] of the [multi_select] property. *)
Record select_option : Type := mkSelectOption { name : string }.

(** The JSON body of the page-creation request (lines 35-45). *)
Record page_data : Type := mkPageData {
  parent_database_id : string;
  title_content : string;
  multi_select : list select_option
}.

Inductive request : Type :=
| POST (url : string) (headers : list (string * string)) (json : page_data)
| PATCH (url : string) (headers : list (string * string))
        (children : list block).

(** What the code reads of a response: the status, the body as text, and
    the body as a JSON object when it is one. *)
Record response : Type := mkResponse {
  status_code : Z;
  text : string;
  body : option (list (string * string))
}.

(** The process environment: the system clock, the Notion server, and the
    requests sent so far. The clock holds one reading, so two reads in one
    call return the same value; the server answers every request, with a
    body that is no JSON or a JSON object of strings. Transport failures
    and other JSON bodies are modelled in [Net], further down. *)
Record world : Type := mkWorld {
  clock : datetime;
  server : request -> response;
  sent : list request
}.

(** Code that talks to the environment and may raise. *)
Definition IO (A : Type) : Type := world -> result A * world.

Definition ret {A : Type} (a : A) : IO A := fun w => (Ok a, w).

Definition raise {A : Type} (e : exn) : IO A := fun w => (Raise e, w).

Definition io_bind {A B : Type} (m : IO A) (k : A -> IO B) : IO B :=
  fun w =>
    match m w with
    | (Ok a, w') => k a w'
    | (Raise e, w') => (Raise e, w')
    end.

Notation "x <~ m ;; k" := (io_bind m (fun x => k))
  (at level 61, m at next level, right associativity).

Definition lift {A : Type} (r : result A) : IO A := fun w => (r, w).

Definition datetime_now : IO datetime := fun w => (Ok (clock w), w).

Definition send (rq : request) : IO response :=
  fun w => (Ok (server w rq),
            {| clock := clock w; server := server w;
               sent := (sent w ++ [rq])%list |}).

Definition requests_post url headers json : IO response :=
  send (POST url headers json).

Definition requests_patch url headers children : IO response :=
  send (PATCH url headers children).

(** [response.json()] and [page[key]]. *)
Definition response_json (r : response) : result (list (string * string)) :=
  match body r with
  | Some o => Ok o
  | None => Raise JSONDecodeError
  end.

Fixpoint getitem (o : list (string * string)) (key : string) : result string :=
  match o with
  | [] => Raise (KeyError key)
  | (k, v) :: o' => if String.eqb k key then Ok v else getitem o' key
  end.

(** ** The integration object *)

(** [notion_config.json] as loaded; [default_tags] is [None] when the file
    has no such key. *)
Record Config : Type := mkConfig {
  notion_api_token : string;
  default_database_id : string;
  default_tags : option (list string)
}.

Record NotionIntegration : Type := mkNotionIntegration {
  config : Config;
  token : string;
  default_db : string;
  base_url : string;
  self_headers : list (string * string)
}.

(** [__init__] once the configuration file is read (lines 20-27). *)
Definition init (cfg : Config) : NotionIntegration :=
  {| config := cfg;
     token := notion_api_token cfg;
     default_db := default_database_id cfg;
     base_url := "https://api.notion.com/v1";
     self_headers :=
       [("Authorization", "Bearer " ++ notion_api_token cfg);
        ("Content-Type", "application/json");
        ("Notion-Version", "2022-06-28")] |}.

(** The dictionary a call returns. *)
Inductive outcome : Type :=
| Error (error : string)
| Success (page_id url title message : string).

(** [not tags]: [None] and the empty list are falsy. *)
Definition falsy (tags : option (list string)) : bool :=
  match tags with
  | None | Some [] => true
  | Some (_ :: _) => false
  end.

Definition config_default_tags (self : NotionIntegration)
  : result (list string) :=
  match default_tags (config self) with
  | Some d => Ok d
  | None => Raise (KeyError "default_tags")
  end.

(** [create_page_with_notes(self, title, notes, tags=None)]. *)
Definition create_page_with_notes (self : NotionIntegration)
           (title notes : string) (tags : option (list string)) : IO outcome :=
  tags <~ (if falsy tags then lift (config_default_tags self)
           else ret (match tags with Some t => t | None => [] end)) ;;
  let page_data :=
    {| parent_database_id := default_db self;
       title_content := title;
       multi_select := map (fun tag => {| name := tag |}) tags |} in
  response <~ requests_post (base_url self ++ "/pages")
                            (self_headers self) page_data ;;
  if negb (status_code response =? 200)%Z then
    ret (Error ("Failed to create page: " ++ text response))
  else
    page <~ lift (response_json response) ;;
    page_id <~ lift (getitem page "id") ;;
    now <~ datetime_now ;;
    blocks <~ lift (_format_notes_as_blocks now notes) ;;
    response <~ requests_patch
                  (base_url self ++ "/blocks/" ++ page_id ++ "/children")
                  (self_headers self) blocks ;;
    if negb (status_code response =? 200)%Z then
      ret (Error ("Failed to add notes: " ++ text response))
    else
      url <~ lift (getitem page "url") ;;
      ret (Success page_id url title
                   ("Created page '" ++ title ++ "' with notes")).

(** [quick_note(self, content)]. *)
Definition quick_note (self : NotionIntegration) (content : string)
  : IO outcome :=
  lines <~ lift (split (strip content) nl) ;;
  title <~ match lines with
           | line0 :: _ =>
               if (len line0 <? 100)%Z then
                 ret (if (len line0 >? 50)%Z
                      then slice_to 50 line0 ++ "..."
                      else line0)
               else
                 now <~ datetime_now ;;
                 ret ("Quick Note - " ++ strftime_Ymd_HM now)
           | [] =>
               now <~ datetime_now ;;
               ret ("Quick Note - " ++ strftime_Ymd_HM now)
           end ;;
  create_page_with_notes self title content (Some ["DAILY"; "PRODUCTIVITY"]).

(** ** Derived notions used to state the properties *)

(** The paragraphs and lines the two [split] calls produce. *)
Definition paragraphs (notes : string) : list string :=
  split_pieces (nl ++ nl) 0 (strip notes).

Definition lines_of (s : string) : list string := split_pieces nl 0 s.

(** What one paragraph adds to [blocks]. *)
Definition blocks_of (para : string) : list block :=
  match format_paragraph [] para with
  | Ok bs => bs
  | Raise _ => []
  end.

(** The timestamp heading of line 86. *)
Definition timestamp_heading (now : datetime) : block :=
  Heading 3 ("Created by Claude Code - " ++ strftime_Ymd_HM now).

Definition is_bullet_line (line : string) : bool :=
  startswith (strip line) "- " || startswith (strip line) "* ".

Definition is_list_paragraph (para : string) : bool :=
  startswith (strip para) "- " || startswith (strip para) "* ".

(** The bullet items a list paragraph's lines give. *)
Definition bullet_items (lines : list string) : list block :=
  map (fun line => BulletItem (slice_from 2 (strip line)))
      (filter is_bullet_line lines).

Definition is_digit (c : ascii) : bool :=
  Nat.leb 48 (nat_of_ascii c) && Nat.leb (nat_of_ascii c) 57.

(** Recogniser of the shape [YYYY-MM-DD HH:MM]. *)
Definition is_Ymd_HM (s : string) : bool :=
  match list_ascii_of_string s with
  | [y1; y2; y3; y4; d1; m1; m2; d2; a1; a2; sp; h1; h2; co; n1; n2] =>
      forallb is_digit [y1; y2; y3; y4; m1; m2; a1; a2; h1; h2; n1; n2]
      && Ascii.eqb d1 "-" && Ascii.eqb d2 "-"
      && Ascii.eqb sp " " && Ascii.eqb co ":"
  | _ => false
  end.

(** Number of leading characters of [s] that satisfy [p]. *)
Fixpoint count_leading (p : ascii -> bool) (s : string) : nat :=
  match s with
  | EmptyString => O
  | String c s' => if p c then S (count_leading p s') else O
  end.

Definition leading_hashes (s : string) : Z :=
  Z.of_nat (count_leading (fun c => mem_char c "#") s).

(** The text before the first newline. *)
Fixpoint first_line (s : string) : string :=
  match s with
  | EmptyString => EmptyString
  | String c s' =>
      if Ascii.eqb c LF then EmptyString else String c (first_line s')
  end.

(** The requests a call has added to the log. *)
Definition sent_by {A : Type} (m : IO A) (w : world) : list request :=
  skipn (List.length (sent w)) (sent (snd (m w))).

(** The tags a call resolves to (lines 31-32). *)
Definition resolved_tags (self : NotionIntegration)
           (tags : option (list string)) : result (list string) :=
  if falsy tags then config_default_tags self
  else Ok (match tags with Some t => t | None => [] end).

(** ** Sample values *)

Definition t0 : datetime := mkDatetime 2024 3 9 7 5 42 0.
Definition t1 : datetime := mkDatetime 2024 3 9 7 5 58 0.
Definition t2 : datetime := mkDatetime 2024 3 9 7 6 0 0.

Definition sample_server (rq : request) : response :=
  match rq with
  | POST _ _ _ =>
      mkResponse 200 "ok" (Some [("id", "p1"); ("url", "https://notion.so/p1")])
  | PATCH _ _ _ => mkResponse 200 "ok" None
  end.

Definition w0 : world := mkWorld t0 sample_server [].

Definition sample_self : NotionIntegration :=
  init (mkConfig "secret" "db1" (Some ["NOTES"])).

(** A first line of 61 characters, and one of 122. *)
Definition line60 : string :=
  "0123456789012345678901234567890123456789012345678901234567890".

Definition line100 : string := line60 ++ line60.

(** ** Further notions for the formatter *)

(** [sep.join(pieces)]. *)
Fixpoint join (sep : string) (pieces : list string) : string :=
  match pieces with
  | [] => EmptyString
  | p :: rest =>
      match rest with
      | [] => p
      | _ :: _ => p ++ sep ++ join sep rest
      end
  end.

(** [sep in s]. *)
Fixpoint occurs (sep s : string) : bool :=
  startswith s sep
  || match s with
     | EmptyString => false
     | String _ s' => occurs sep s'
     end.

(** The block types the Notion API knows among those the formatter can
    name, and [heading_0], which it can name too. *)
Definition formatter_types : list string :=
  ["heading_0"; "heading_1"; "heading_2"; "heading_3";
   "bulleted_list_item"; "paragraph"].

(** Every character of [s] satisfies [p]. *)
Fixpoint all_chars (p : ascii -> bool) (s : string) : bool :=
  match s with
  | EmptyString => true
  | String c s' => p c && all_chars p s'
  end.

(** What the formatter promises of a block: it is a block of one of the
    types above. *)
Definition known_block (b : block) : Prop :=
  object b = "block" /\ In (type b) formatter_types.

(** What it promises of the text of a paragraph and of a bulleted item. *)
Definition text_kept (b : block) : Prop :=
  (type b = "paragraph" ->
   content b <> EmptyString /\ strip (content b) = content b)
  /\ (type b = "bulleted_list_item" -> content b <> EmptyString).


(** ** Further notions for the note-taking calls *)

(** The two requests [create_page_with_notes] can send. *)
Definition page_request (self : NotionIntegration) (title : string)
           (tags : list string) : request :=
  POST (base_url self ++ "/pages") (self_headers self)
       {| parent_database_id := default_db self;
          title_content := title;
          multi_select := map mkSelectOption tags |}.

Definition notes_request (self : NotionIntegration) (page_id : string)
           (blocks : list block) : request :=
  PATCH (base_url self ++ "/blocks/" ++ page_id ++ "/children")
        (self_headers self) blocks.

(** The world once [rqs] have been sent. *)
Definition after (w : world) (rqs : list request) : world :=
  {| clock := clock w; server := server w; sent := (sent w ++ rqs)%list |}.

(** The blocks the formatter returns at the clock reading of [w]. *)
Definition blocks_at (w : world) (notes : string) : list block :=
  timestamp_heading (clock w) :: flat_map blocks_of (paragraphs notes).

(** The title [quick_note] gives a page. *)
Definition quick_title (now : datetime) (content : string) : string :=
  let line0 := first_line (strip content) in
  if (len line0 <? 100)%Z then
    if (len line0 >? 50)%Z then slice_to 50 line0 ++ "..." else line0
  else "Quick Note - " ++ strftime_Ymd_HM now.

(** A server that accepts the page and refuses the notes, and worlds around
    it and around servers that refuse the page or answer without a body. *)
Definition refusing_notes (rq : request) : response :=
  match rq with
  | POST _ _ _ =>
      mkResponse 200 "ok" (Some [("id", "p1"); ("url", "https://notion.so/p1")])
  | PATCH _ _ _ => mkResponse 400 "bad blocks" None
  end.

Definition refusing_page (rq : request) : response :=
  mkResponse 401 "unauthorized" None.

Definition answering_without_url (rq : request) : response :=
  mkResponse 200 "ok" (Some [("id", "p1")]).

Definition answering_without_body (rq : request) : response :=
  mkResponse 200 "ok" None.

Definition answering_without_id (rq : request) : response :=
  mkResponse 200 "ok" (Some [("url", "https://notion.so/p1")]).

Definition self_without_default_tags : NotionIntegration :=
  init (mkConfig "secret" "db1" None).


(** ** JSON values, as Python holds them *)

Module Json.

#[local] Set Warnings "-register-all".

(** A parsed JSON value; numbers are the integers. A dictionary keeps its
    keys in insertion order. *)
Inductive json : Type :=
| JNull
| JBool (b : bool)
| JInt (n : Z)
| JStr (s : string)
| JList (items : list json)
| JDict (fields : list (string * json)).

(** The exceptions of the code that handles JSON and HTTP. *)
Inductive error : Type :=
| KeyError (key : json)
| TypeError
| IndexError
| JSONDecodeError
| RequestException (msg : string)
| SystemExit (code : Z).

Inductive res (A : Type) : Type :=
| Ret (a : A)
| Exc (e : error).
Arguments Ret {A} a.
Arguments Exc {A} e.

Definition bind {A B : Type} (m : res A) (k : A -> res B) : res B :=
  match m with
  | Ret a => k a
  | Exc e => Exc e
  end.

Fixpoint for_each {A S : Type} (xs : list A) (acc : S)
         (body : S -> A -> res S) : res S :=
  match xs with
  | [] => Ret acc
  | x :: xs' => bind (body acc x) (fun acc' => for_each xs' acc' body)
  end.

(** [d.get(key)] and [d[key] = value] on the fields of a dictionary. *)
Fixpoint dict_get (d : list (string * json)) (key : string) : option json :=
  match d with
  | [] => None
  | (k, v) :: d' => if String.eqb k key then Some v else dict_get d' key
  end.

Fixpoint dict_set (d : list (string * json)) (key : string) (value : json)
  : list (string * json) :=
  match d with
  | [] => [(key, value)]
  | (k, v) :: d' =>
      if String.eqb k key then (k, value) :: d'
      else (k, v) :: dict_set d' key value
  end.

(** A dictionary display [{k1: v1, k2: v2, ...}]: a later key replaces an
    equal earlier one. *)
Definition dict (items : list (string * json)) : json :=
  JDict (fold_left (fun d kv => dict_set d (fst kv) (snd kv)) items []).

(** Truth value. *)
Definition truth (x : json) : bool :=
  match x with
  | JNull => false
  | JBool b => b
  | JInt n => negb (n =? 0)%Z
  | JStr s => truthy s
  | JList items => match items with [] => false | _ :: _ => true end
  | JDict fields => match fields with [] => false | _ :: _ => true end
  end.

(** [x[key]] for a string [key]. *)
Definition getitem (x : json) (key : string) : res json :=
  match x with
  | JDict fields =>
      match dict_get fields key with
      | Some v => Ret v
      | None => Exc (KeyError (JStr key))
      end
  | _ => Exc TypeError
  end.

(** [x[0]]. *)
Definition getitem0 (x : json) : res json :=
  match x with
  | JList items =>
      match items with
      | v :: _ => Ret v
      | [] => Exc IndexError
      end
  | JStr s =>
      match s with
      | String c _ => Ret (JStr (String c EmptyString))
      | EmptyString => Exc IndexError
      end
  | JDict _ => Exc (KeyError (JInt 0))
  | _ => Exc TypeError
  end.

(** The values [for v in x] runs through. *)
Definition iter (x : json) : res (list json) :=
  match x with
  | JList items => Ret items
  | JDict fields => Ret (map (fun kv => JStr (fst kv)) fields)
  | JStr s =>
      Ret (map (fun c => JStr (String c EmptyString)) (list_ascii_of_string s))
  | _ => Exc TypeError
  end.

End Json.

(** ** HTTP with JSON bodies, and the standard output *)

Module Net.
Import Json.

Inductive method : Type := GET | POST | PATCH.

Record request : Type := mkRequest {
  verb : method;
  url : string;
  headers : list (string * string);
  json : option Json.json
}.

(** What the code reads of a response. *)
Record response : Type := mkResponse {
  status_code : Z;
  text : string;
  parsed : option Json.json
}.

(** The server answers, or the transport fails with a
    [RequestException]. *)
Inductive transport : Type :=
| Answer (r : response)
| Failure (msg : string).

(** What is printed: a line, the rendering [json.dumps(value, indent=2)],
    or "API Error: " followed by the rendering of an exception. *)
Inductive output : Type :=
| Print (line : string)
| PrintJson (value : Json.json)
| PrintApiError (e : error).

Record world : Type := mkWorld {
  server : request -> transport;
  sent : list request;
  stdout : list output
}.

Definition IO (A : Type) : Type := world -> res A * world.

Definition ret {A : Type} (a : A) : IO A := fun w => (Ret a, w).

Definition raise {A : Type} (e : error) : IO A := fun w => (Exc e, w).

Definition lift {A : Type} (r : res A) : IO A := fun w => (r, w).

Definition io_bind {A B : Type} (m : IO A) (k : A -> IO B) : IO B :=
  fun w =>
    match m w with
    | (Ret a, w') => k a w'
    | (Exc e, w') => (Exc e, w')
    end.

(** [try: m  except RequestException as e: handler(e)], where [caught]
    tells the exceptions that derive from [RequestException]. *)
Definition try_except {A : Type} (caught : error -> bool) (m : IO A)
           (handler : error -> IO A) : IO A :=
  fun w =>
    match m w with
    | (Ret a, w') => (Ret a, w')
    | (Exc e, w') => if caught e then handler e w' else (Exc e, w')
    end.

Definition requests_send (rq : request) : IO response :=
  fun w =>
    let w' := {| server := server w; sent := (sent w ++ [rq])%list;
                 stdout := stdout w |} in
    match server w rq with
    | Answer r => (Ret r, w')
    | Failure msg => (Exc (RequestException msg), w')
    end.

Definition requests_get url headers : IO response :=
  requests_send (mkRequest GET url headers None).

Definition requests_post url headers data : IO response :=
  requests_send (mkRequest POST url headers (Some data)).

Definition requests_patch url headers data : IO response :=
  requests_send (mkRequest PATCH url headers (Some data)).

(** [response.json()]. *)
Definition response_json (r : response) : res Json.json :=
  match parsed r with
  | Some v => Ret v
  | None => Exc JSONDecodeError
  end.

Definition emit (o : output) : IO unit :=
  fun w => (Ret tt, {| server := server w; sent := sent w;
                       stdout := (stdout w ++ [o])%list |}).

Definition print (line : string) : IO unit := emit (Print line).

End Net.

Declare Scope res_scope.
Delimit Scope res_scope with res.
Declare Scope net_scope.
Delimit Scope net_scope with net.
Notation "x <- m ;; k" := (Json.bind m (fun x => k))
  (at level 61, m at next level, right associativity) : res_scope.
Notation "x <- m ;; k" := (Net.io_bind m (fun x => k))
  (at level 61, m at next level, right associativity) : net_scope.
Notation "m ;;; k" := (Net.io_bind m (fun _ => k))
  (at level 61, right associativity) : net_scope.

(** ** Listing the recent pages *)

Module Listing.
Import Json Net.

(** Body of [for page in result["results"]] (lines 177-187). *)
Definition page_entry (pages : list Json.json) (page : Json.json)
  : res (list Json.json) :=
  (let title := JStr "Untitled" in
   properties <- getitem page "properties" ;;
   Page <- getitem properties "Page" ;;
   t <- getitem Page "title" ;;
   title <- (if truth t then
               properties <- getitem page "properties" ;;
               Page <- getitem properties "Page" ;;
               t <- getitem Page "title" ;;
               first <- getitem0 t ;;
               getitem first "plain_text"
             else Ret title) ;;
   id <- getitem page "id" ;;
   url <- getitem page "url" ;;
   last_edited <- getitem page "last_edited_time" ;;
   Ret (pages ++ [dict [("id", id); ("title", title); ("url", url);
                        ("last_edited", last_edited)]])%list)%res.

(** [list_recent_pages(self, limit=5)]; [limit] is [None] when omitted. *)
Definition list_recent_pages (self : NotionIntegration) (limit : option Z)
  : IO Json.json :=
  (let limit := match limit with Some n => n | None => 5%Z end in
   let data :=
     dict [("sorts",
            JList [dict [("timestamp", JStr "last_edited_time");
                         ("direction", JStr "descending")]]);
           ("page_size", JInt limit)] in
   response <- requests_post
                 (base_url self ++ "/databases/" ++ default_db self
                  ++ "/query")
                 (self_headers self) data ;;
   if negb (status_code response =? 200)%Z then
     ret (dict [("error",
                 JStr ("Failed to list pages: " ++ text response))])
   else
     result <- lift (response_json response) ;;
     results <- lift (getitem result "results") ;;
     items <- lift (iter results) ;;
     pages <- lift (for_each items [] page_entry) ;;
     ret (dict [("pages", JList pages)]))%net.

End Listing.


(** ** [notion_helper.py] *)

Module NotionHelper.
Import Json Net.

Record NotionClient : Type := mkNotionClient {
  token : string;
  base_url : string;
  headers : list (string * string)
}.

(** [NotionClient(token)]. *)
Definition new (token : string) : NotionClient :=
  {| token := token;
     base_url := "https://api.notion.com/v1";
     headers := [("Authorization", "Bearer " ++ token);
                 ("Content-Type", "application/json");
                 ("Notion-Version", "2022-06-28")] |}.

Definition search (self : NotionClient) (query : string) : IO Json.json :=
  (let data :=
     dict [("query", JStr query);
           ("filter", dict [("property", JStr "object");
                            ("value", JStr "page")])] in
   response <- requests_post (base_url self ++ "/search") (headers self)
                             data ;;
   lift (response_json response))%net.

Definition list_databases (self : NotionClient) : IO Json.json :=
  (let data :=
     dict [("filter", dict [("property", JStr "object");
                            ("value", JStr "database")])] in
   response <- requests_post (base_url self ++ "/search") (headers self)
                             data ;;
   lift (response_json response))%net.

Definition get_page (self : NotionClient) (page_id : string)
  : IO Json.json :=
  (response <- requests_get (base_url self ++ "/pages/" ++ page_id)
                            (headers self) ;;
   lift (response_json response))%net.

Definition get_database (self : NotionClient) (database_id : string)
  : IO Json.json :=
  (response <- requests_get (base_url self ++ "/databases/" ++ database_id)
                            (headers self) ;;
   lift (response_json response))%net.

(** [query_database(self, database_id, filter_obj=None)]. *)
Definition query_database (self : NotionClient) (database_id : string)
           (filter_obj : option Json.json) : IO Json.json :=
  (let data := [] in
   let data :=
     match filter_obj with
     | Some f => if truth f then dict_set data "filter" f else data
     | None => data
     end in
   response <- requests_post
                 (base_url self ++ "/databases/" ++ database_id ++ "/query")
                 (headers self) (JDict data) ;;
   lift (response_json response))%net.

(** [create_page(self, parent_id, title, parent_type="database_id")]. *)
Definition create_page (self : NotionClient) (parent_id title : string)
           (parent_type : option string) : IO Json.json :=
  (let parent_type :=
     match parent_type with Some t => t | None => "database_id" end in
   let data :=
     dict [("parent", dict [(parent_type, JStr parent_id)]);
           ("properties",
            dict [("Name",
                   dict [("title",
                          JList [dict [("text",
                                        dict [("content",
                                               JStr title)])]])])])] in
   response <- requests_post (base_url self ++ "/pages") (headers self)
                             data ;;
   lift (response_json response))%net.

(** [append_block(self, page_id, content, block_type="paragraph")]. *)
Definition append_block (self : NotionClient) (page_id content : string)
           (block_type : option string) : IO Json.json :=
  (let block_type :=
     match block_type with Some t => t | None => "paragraph" end in
   let data :=
     dict [("children",
            JList [dict [("object", JStr "block");
                         ("type", JStr block_type);
                         (block_type,
                          dict [("rich_text",
                                 JList [dict [("type", JStr "text");
                                              ("text",
                                               dict [("content",
                                                      JStr content)])]])])]])]
   in
   response <- requests_patch
                 (base_url self ++ "/blocks/" ++ page_id ++ "/children")
                 (headers self) data ;;
   lift (response_json response))%net.

(** What [main] reads of its process: [NOTION_API_TOKEN] in the
    environment, [sys.argv], and whether the installed [requests] derives
    its JSON decoding error from [RequestException] (it does from version
    2.27 on). *)
Record process : Type := mkProcess {
  environ_token : option string;
  argv : list string;
  decode_error_is_request_exception : bool
}.

(** [sys.argv[i]]. *)
Definition argv_at (p : process) (i : nat) : res string :=
  match nth_error (argv p) i with
  | Some a => Ret a
  | None => Exc IndexError
  end.

(** The exceptions [except requests.exceptions.RequestException] takes. *)
Definition is_request_exception (p : process) (e : error) : bool :=
  match e with
  | RequestException _ => true
  | JSONDecodeError => decode_error_is_request_exception p
  | _ => false
  end.

Definition usage : list string :=
  ["Usage: python notion_helper.py <command> [args]";
   nl ++ "Commands:";
   "  search <query>";
   "  list-databases";
   "  get-page <page_id>";
   "  get-database <database_id>";
   "  query-database <database_id>";
   "  create-page <database_id> <title>";
   "  append-block <page_id> <content>"].

Fixpoint print_all (lines : list string) : IO unit :=
  match lines with
  | [] => ret tt
  | line :: lines' => (print line ;;; print_all lines')%net
  end.

(** [main()]. *)
Definition main (p : process) : IO unit :=
  (let token := match environ_token p with Some t => t | None => "" end in
   if negb (truthy token) then
     print "Error: NOTION_API_TOKEN environment variable not set" ;;;
     raise (SystemExit 1)
   else
     let client := new token in
     if (List.length (argv p) <? 2)%nat then
       print_all usage ;;; raise (SystemExit 1)
     else
       command <- lift (argv_at p 1) ;;
       let n := List.length (argv p) in
       try_except (is_request_exception p)
         (result <-
            (if String.eqb command "search" && (2 <? n)%nat then
               a <- lift (argv_at p 2) ;; search client a
             else if String.eqb command "list-databases" then
               list_databases client
             else if String.eqb command "get-page" && (2 <? n)%nat then
               a <- lift (argv_at p 2) ;; get_page client a
             else if String.eqb command "get-database" && (2 <? n)%nat then
               a <- lift (argv_at p 2) ;; get_database client a
             else if String.eqb command "query-database" && (2 <? n)%nat then
               a <- lift (argv_at p 2) ;; query_database client a None
             else if String.eqb command "create-page" && (3 <? n)%nat then
               a <- lift (argv_at p 2) ;; b <- lift (argv_at p 3) ;;
               create_page client a b None
             else if String.eqb command "append-block" && (3 <? n)%nat then
               a <- lift (argv_at p 2) ;; b <- lift (argv_at p 3) ;;
               append_block client a b None
             else
               print ("Invalid command or missing arguments: " ++ command) ;;;
               raise (SystemExit 1)) ;;
          emit (PrintJson result))
         (fun e => emit (PrintApiError e) ;;; raise (SystemExit 1)))%net.

End NotionHelper.


(** ** Notions used to state the properties of the JSON calls *)

(** The world once [rqs] have been sent and [outs] printed. *)
Definition net_after (w : Net.world) (rqs : list Net.request)
           (outs : list Net.output) : Net.world :=
  {| Net.server := Net.server w;
     Net.sent := (Net.sent w ++ rqs)%list;
     Net.stdout := (Net.stdout w ++ outs)%list |}.

(** The request [list_recent_pages] sends. *)
Definition query_request (self : NotionIntegration) (limit : option Z)
  : Net.request :=
  Net.mkRequest Net.POST
    (base_url self ++ "/databases/" ++ default_db self ++ "/query")
    (self_headers self)
    (Some (Json.JDict
             [("sorts",
               Json.JList
                 [Json.JDict
                    [("timestamp", Json.JStr "last_edited_time");
                     ("direction", Json.JStr "descending")]]);
              ("page_size",
               Json.JInt (match limit with Some n => n | None => 5%Z end))])).

(** The title of a page whose title property is the list [titles]. *)
Definition titled (titles : list Json.json) (title : Json.json) : Prop :=
  (titles = [] /\ title = Json.JStr "Untitled")
  \/ (exists first rest,
         titles = Json.JDict first :: rest
         /\ Json.dict_get first "plain_text" = Some title).

(** [entry] is the summary of [page]: its id, title, url and time of last
    edit, under the keys [id], [title], [url], [last_edited]. *)
Definition summarises (page entry : Json.json) : Prop :=
  exists fields props pg titles id url edited title,
    page = Json.JDict fields
    /\ Json.dict_get fields "properties" = Some (Json.JDict props)
    /\ Json.dict_get props "Page" = Some (Json.JDict pg)
    /\ Json.dict_get pg "title" = Some (Json.JList titles)
    /\ Json.dict_get fields "id" = Some id
    /\ Json.dict_get fields "url" = Some url
    /\ Json.dict_get fields "last_edited_time" = Some edited
    /\ titled titles title
    /\ entry = Json.JDict [("id", id); ("title", title); ("url", url);
                           ("last_edited", edited)].

(** The least length of [sys.argv] with which [main] runs a command. *)
Definition required (command : string) : option nat :=
  if String.eqb command "search" then Some 3%nat
  else if String.eqb command "list-databases" then Some 2%nat
  else if String.eqb command "get-page" then Some 3%nat
  else if String.eqb command "get-database" then Some 3%nat
  else if String.eqb command "query-database" then Some 3%nat
  else if String.eqb command "create-page" then Some 4%nat
  else if String.eqb command "append-block" then Some 4%nat
  else None.

(** The verb and the URL a command goes to, given [sys.argv[2]]. *)
Definition route (command arg : string) : Net.method * string :=
  let base := "https://api.notion.com/v1" in
  if String.eqb command "search" then (Net.POST, base ++ "/search")
  else if String.eqb command "list-databases" then
    (Net.POST, base ++ "/search")
  else if String.eqb command "get-page" then
    (Net.GET, base ++ "/pages/" ++ arg)
  else if String.eqb command "get-database" then
    (Net.GET, base ++ "/databases/" ++ arg)
  else if String.eqb command "query-database" then
    (Net.POST, base ++ "/databases/" ++ arg ++ "/query")
  else if String.eqb command "create-page" then (Net.POST, base ++ "/pages")
  else (Net.PATCH, base ++ "/blocks/" ++ arg ++ "/children").

(** Sample pages, answers and processes. *)
Definition titled_page : Json.json :=
  Json.JDict
    [("id", Json.JStr "p1");
     ("url", Json.JStr "https://notion.so/p1");
     ("last_edited_time", Json.JStr "2024-03-09T07:05:00.000Z");
     ("properties",
      Json.JDict
        [("Page",
          Json.JDict
            [("title",
              Json.JList
                [Json.JDict [("plain_text", Json.JStr "Plan")]])])])].

Definition untitled_page : Json.json :=
  Json.JDict
    [("id", Json.JStr "p2");
     ("url", Json.JStr "https://notion.so/p2");
     ("last_edited_time", Json.JStr "2024-03-08T10:00:00.000Z");
     ("properties",
      Json.JDict [("Page", Json.JDict [("title", Json.JList [])])])].

Definition page_without_url : Json.json :=
  Json.JDict
    [("id", Json.JStr "p3");
     ("last_edited_time", Json.JStr "2024-03-08T10:00:00.000Z");
     ("properties",
      Json.JDict [("Page", Json.JDict [("title", Json.JList [])])])].

Definition answering (status : Z) (v : option Json.json)
           (rq : Net.request) : Net.transport :=
  Net.Answer (Net.mkResponse status "body" v).

Definition failing (rq : Net.request) : Net.transport :=
  Net.Failure "connection refused".

Definition net0 (server : Net.request -> Net.transport) : Net.world :=
  Net.mkWorld server [] [].

Definition two_pages : Json.json :=
  Json.JDict [("results", Json.JList [titled_page; untitled_page])].

Definition broken_pages : Json.json :=
  Json.JDict [("results", Json.JList [titled_page; page_without_url])].

Definition cli (token : option string) (args : list string)
  : NotionHelper.process :=
  NotionHelper.mkProcess token ("notion_helper.py" :: args) true.

(** The commands that run, with the arguments they read. *)
Inductive runnable : string -> list string -> Prop :=
| run_search a rest : runnable "search" (a :: rest)
| run_list_databases args : runnable "list-databases" args
| run_get_page a rest : runnable "get-page" (a :: rest)
| run_get_database a rest : runnable "get-database" (a :: rest)
| run_query_database a rest : runnable "query-database" (a :: rest)
| run_create_page a b rest : runnable "create-page" (a :: b :: rest)
| run_append_block a b rest : runnable "append-block" (a :: b :: rest).



(** ** Strings *)

#[local] Arguments Ascii.eqb : simpl never.

Lemma split_nl (s : string) : split s nl = Ok (lines_of s).
Proof. reflexivity. Qed.

Lemma split_blank_line (s : string) :
  split s (nl ++ nl) = Ok (split_pieces (nl ++ nl) 0 s).
Proof. reflexivity. Qed.

Lemma lstrip_by_length (p : ascii -> bool) (s : string) :
  String.length s = count_leading p s + String.length (lstrip_by p s).
Proof.
  induction s as [|c s IH]; simpl; [reflexivity|].
  destruct (p c); simpl; [now rewrite IH | reflexivity].
Qed.

Lemma rstrip_by_keeps_head (p : ascii -> bool) (c : ascii) (s : string) :
  p c = false -> exists r, rstrip_by p (String c s) = String c r.
Proof.
  intros Hc. simpl. destruct (rstrip_by p s) as [|d r].
  - rewrite Hc. now exists EmptyString.
  - now exists (String d r).
Qed.

Lemma lines_of_first_line (s : string) :
  exists rest, lines_of s = first_line s :: rest.
Proof.
  unfold lines_of.
  induction s as [|c s [rest IH]].
  - now exists [].
  - cbn [split_pieces first_line startswith nl].
    destruct (Ascii.eqb c LF); cbn [andb].
    + eexists; reflexivity.
    + rewrite IH. now exists rest.
Qed.

Lemma startswith_any_two (s a b : string) :
  startswith_any s [a; b] = startswith s a || startswith s b.
Proof. unfold startswith_any; simpl. now rewrite orb_false_r. Qed.

Lemma startswith_nonempty (s p : string) :
  startswith s p = true -> truthy p = true -> truthy s = true.
Proof. destruct p, s; simpl; congruence. Qed.

Lemma is_digit_digit (d : Z) : is_digit (digit d) = true.
Proof.
  unfold digit.
  assert (H : (Z.to_nat (d mod 10) < 10)%nat)
    by (pose proof (Z.mod_pos_bound d 10); lia).
  remember (Z.to_nat (d mod 10)) as k eqn:Ek; clear Ek.
  do 10 (destruct k as [|k]; [reflexivity|]); lia.
Qed.

Lemma strftime_shape (dt : datetime) : is_Ymd_HM (strftime_Ymd_HM dt) = true.
Proof.
  cbv [strftime_Ymd_HM zero_padded append is_Ymd_HM list_ascii_of_string
       forallb].
  rewrite !is_digit_digit. reflexivity.
Qed.

(** ** The loops of the formatter *)

Lemma for_each_format_line (lines : list string) :
  forall blocks,
    for_each lines blocks format_line = Ok (blocks ++ bullet_items lines)%list.
Proof.
  unfold bullet_items.
  induction lines as [|line lines IH]; intros blocks; simpl.
  - now rewrite app_nil_r.
  - unfold format_line at 1. rewrite startswith_any_two.
    fold (is_bullet_line line).
    destruct (is_bullet_line line); simpl; rewrite IH.
    + now rewrite <- app_assoc.
    + reflexivity.
Qed.

Lemma format_paragraph_appends (blocks : list block) (para : string) :
  format_paragraph blocks para = Ok (blocks ++ blocks_of para)%list.
Proof.
  unfold blocks_of, format_paragraph.
  destruct (truthy (strip para)); [|now rewrite app_nil_r].
  destruct (startswith (strip para) "- " || startswith (strip para) "* ").
  - rewrite split_nl. cbn [bind]. now rewrite !for_each_format_line.
  - destruct (startswith (strip para) "#"); reflexivity.
Qed.

Lemma for_each_format_paragraph (paras : list string) :
  forall blocks,
    for_each paras blocks format_paragraph
    = Ok (blocks ++ flat_map blocks_of paras)%list.
Proof.
  induction paras as [|para paras IH]; intros blocks; simpl.
  - now rewrite app_nil_r.
  - rewrite format_paragraph_appends. cbn [bind].
    rewrite IH. now rewrite <- app_assoc.
Qed.

(** The output is the timestamp heading followed by what each paragraph
    adds, in the order of the paragraphs. *)
Lemma format_in_paragraph_order (now : datetime) (notes : string) :
  _format_notes_as_blocks now notes
  = Ok (timestamp_heading now :: flat_map blocks_of (paragraphs notes)).
Proof.
  unfold _format_notes_as_blocks. rewrite split_blank_line. cbn [bind].
  rewrite for_each_format_paragraph. reflexivity.
Qed.

(** ** What one paragraph adds *)

Lemma blocks_of_blank (para : string) :
  truthy (strip para) = false -> blocks_of para = [].
Proof. intros H. unfold blocks_of, format_paragraph. now rewrite H. Qed.

Lemma list_paragraph_nonblank (para : string) :
  is_list_paragraph para = true -> truthy (strip para) = true.
Proof.
  unfold is_list_paragraph. intros H.
  apply orb_true_iff in H as [H|H];
    eapply startswith_nonempty; eauto.
Qed.

Lemma blocks_of_list (para : string) :
  is_list_paragraph para = true ->
  blocks_of para = bullet_items (lines_of (strip para)).
Proof.
  intros H. pose proof (list_paragraph_nonblank _ H) as Ht.
  unfold is_list_paragraph in H.
  unfold blocks_of, format_paragraph. rewrite Ht, H, split_nl. cbn [bind].
  now rewrite for_each_format_line.
Qed.

Lemma level_is_leading_hashes (para : string) :
  (len para - len (lstrip_chars para "#"))%Z = leading_hashes para.
Proof.
  unfold len, lstrip_chars, leading_hashes.
  rewrite (lstrip_by_length (fun c => mem_char c "#") para) at 1. lia.
Qed.

Lemma blocks_of_heading (para : string) :
  truthy (strip para) = true ->
  is_list_paragraph para = false ->
  startswith (strip para) "#" = true ->
  blocks_of para
  = [Heading (Z.min (leading_hashes para) 3) (strip (strip_chars para "#"))].
Proof.
  intros Ht Hl Hh. unfold is_list_paragraph in Hl.
  unfold blocks_of, format_paragraph. rewrite Ht, Hl, Hh.
  now rewrite level_is_leading_hashes.
Qed.

Lemma blocks_of_plain (para : string) :
  truthy (strip para) = true ->
  is_list_paragraph para = false ->
  startswith (strip para) "#" = false ->
  blocks_of para = [Paragraph (strip para)].
Proof.
  intros Ht Hl Hh. unfold is_list_paragraph in Hl.
  unfold blocks_of, format_paragraph. now rewrite Ht, Hl, Hh.
Qed.


Lemma strip_of_hash_paragraph (para : string) :
  startswith para "#" = true -> exists r, strip para = String "#" r.
Proof.
  destruct para as [|c s]; [discriminate|].
  cbn [startswith]. rewrite andb_true_r. intros Hc.
  apply Ascii.eqb_eq in Hc. subst c.
  unfold strip, strip_by. cbn [lstrip_by].
  replace (isspace "#") with false by reflexivity.
  now apply rstrip_by_keeps_head.
Qed.

(** A paragraph that itself begins with [#] becomes a heading whose level
    is the number of its leading [#], at most 3 and at least 1. *)
Lemma heading_of_hash_paragraph (blocks : list block) (para : string) :
  startswith para "#" = true ->
  format_paragraph blocks para
  = Ok (blocks ++ [Heading (Z.min (leading_hashes para) 3)
                           (strip (strip_chars para "#"))])%list
  /\ (1 <= Z.min (leading_hashes para) 3 <= 3)%Z.
Proof.
  intros H. destruct (strip_of_hash_paragraph _ H) as [r Hr]. split.
  - rewrite format_paragraph_appends. f_equal. f_equal.
    apply blocks_of_heading.
    + now rewrite Hr.
    + unfold is_list_paragraph. now rewrite Hr.
    + now rewrite Hr.
  - destruct para as [|c s]; [discriminate|].
    cbn [startswith] in H. rewrite andb_true_r in H.
    apply Ascii.eqb_eq in H. subst c.
    unfold leading_hashes. cbn [count_leading mem_char].
    replace (Ascii.eqb "#" "#" || false) with true by reflexivity. lia.
Qed.

(** ** Properties of the formatter *)

(** C1: whatever the notes, the first block of the formatter's output is the
    [heading_3] block whose text is "Created by Claude Code - " followed by
    the clock reading in the shape YYYY-MM-DD HH:MM, and the blocks after it
    are exactly those the paragraphs of the notes give. *)
Theorem first_block_is_timestamp_heading (now : datetime) (notes : string) :
  exists rest,
    _format_notes_as_blocks now notes
    = Ok (Heading 3 ("Created by Claude Code - " ++ strftime_Ymd_HM now)
            :: rest)
    /\ type (Heading 3 ("Created by Claude Code - " ++ strftime_Ymd_HM now))
       = "heading_3"
    /\ is_Ymd_HM (strftime_Ymd_HM now) = true
    /\ rest = flat_map blocks_of (paragraphs notes).
Proof.
  exists (flat_map blocks_of (paragraphs notes)).
  rewrite format_in_paragraph_order.
  repeat split. apply strftime_shape.
Qed.




(** C3: when a paragraph of the notes has a trimmed form that starts with
    "- " or "* ", the formatter's output holds at that paragraph's place,
    after the timestamp heading and the blocks of the paragraphs before it
    and before the blocks of the paragraphs after it, one bulleted item for
    each line of the trimmed paragraph whose trimmed form starts with "- "
    or "* ", in the order of the lines, whose text is the trimmed line
    without its first two characters; the other lines of the paragraph give
    no block. *)
Theorem list_paragraph_blocks (now : datetime) (notes : string)
        (earlier later : list string) (para : string) :
  split (strip notes) (nl ++ nl) = Ok (earlier ++ para :: later)%list ->
  startswith (strip para) "- " || startswith (strip para) "* " = true ->
  exists lines,
    split (strip para) nl = Ok lines
    /\ _format_notes_as_blocks now notes
       = Ok ((timestamp_heading now :: flat_map blocks_of earlier)
             ++ map (fun line => BulletItem (slice_from 2 (strip line)))
                    (filter (fun line =>
                               startswith (strip line) "- "
                               || startswith (strip line) "* ") lines)
             ++ flat_map blocks_of later)%list.
Proof.
  intros Hs Hl. exists (lines_of (strip para)). split; [apply split_nl|].
  assert (E : paragraphs notes = (earlier ++ para :: later)%list).
  { unfold paragraphs. rewrite split_blank_line in Hs. congruence. }
  rewrite format_in_paragraph_order, E.
  rewrite flat_map_app. cbn [flat_map].
  rewrite (blocks_of_list para Hl). reflexivity.
Qed.

Lemma list_paragraph_blocks_witness :
  _format_notes_as_blocks t0
    ("Intro" ++ nl ++ nl ++ "- a" ++ nl ++ "note" ++ nl ++ "* b"
     ++ nl ++ nl ++ "End")
  = Ok [timestamp_heading t0; Paragraph "Intro"; BulletItem "a";
        BulletItem "b"; Paragraph "End"].
Proof.
  destruct (list_paragraph_blocks t0
              ("Intro" ++ nl ++ nl ++ "- a" ++ nl ++ "note" ++ nl ++ "* b"
               ++ nl ++ nl ++ "End")
              ["Intro"] ["End"] ("- a" ++ nl ++ "note" ++ nl ++ "* b")
              eq_refl eq_refl) as [lines [Hs Hf]].
  injection Hs as <-. exact Hf.
Defined.

(** C4 at the notes "Intro\n\n\n# Title": the second paragraph is
    "\n# Title", its trimmed form starts with "#", and the block it gives
    has type [heading_0]: the level is counted on the untrimmed paragraph
    and is not raised to 1. *)
Theorem heading_level_zero (now : datetime) :
  let notes := "Intro" ++ nl ++ nl ++ nl ++ "# Title" in
  paragraphs notes = ["Intro"; nl ++ "# Title"]
  /\ startswith (strip (nl ++ "# Title")) "#" = true
  /\ _format_notes_as_blocks now notes
     = Ok [timestamp_heading now; Paragraph "Intro"; Heading 0 "# Title"]
  /\ type (Heading 0 "# Title") = "heading_0".
Proof.
  cbv zeta. rewrite format_in_paragraph_order. repeat split.
Qed.

(** C5 at the notes "Summary\n\n ## Next steps": the heading that the
    second paragraph gives keeps its leading "##" in its text, because the
    "#" are stripped off the untrimmed paragraph, which begins with a
    space. *)
Theorem heading_text_keeps_hashes (now : datetime) :
  let notes := "Summary" ++ nl ++ nl ++ " ## Next steps" in
  paragraphs notes = ["Summary"; " ## Next steps"]
  /\ startswith (strip " ## Next steps") "#" = true
  /\ _format_notes_as_blocks now notes
     = Ok [timestamp_heading now; Paragraph "Summary";
           Heading 0 "## Next steps"].
Proof.
  cbv zeta. rewrite format_in_paragraph_order. repeat split.
Qed.

(** C6: the formatter returns a block list on every input, raising nothing,
    and on the empty string it returns the timestamp heading alone. *)
Theorem formatter_total :
  (forall now notes, exists blocks,
      _format_notes_as_blocks now notes = Ok blocks)
  /\ (forall now,
        _format_notes_as_blocks now EmptyString
        = Ok [Heading 3 ("Created by Claude Code - "
                         ++ strftime_Ymd_HM now)]).
Proof.
  split.
  - intros now notes. eexists. apply format_in_paragraph_order.
  - intros now. rewrite format_in_paragraph_order. reflexivity.
Qed.

(** C7 at the notes "Body\n\n # Title" and the notes with the two
    paragraphs exchanged, " # Title\n\nBody": the heading paragraph gives
    [heading_0] with text "# Title" in the first and [heading_1] with text
    "Title" in the second, so the blocks are not the same blocks in the
    other order. *)
Theorem swapped_paragraphs_change_heading (now : datetime) :
  let body := "Body" in
  let head := " # Title" in
  paragraphs (body ++ nl ++ nl ++ head) = [body; head]
  /\ _format_notes_as_blocks now (body ++ nl ++ nl ++ head)
     = Ok [timestamp_heading now; Paragraph "Body"; Heading 0 "# Title"]
  /\ _format_notes_as_blocks now (head ++ nl ++ nl ++ body)
     = Ok [timestamp_heading now; Heading 1 "Title"; Paragraph "Body"].
Proof.
  cbv zeta. rewrite !format_in_paragraph_order. repeat split.
Qed.

(** C8, as the code has it: the timestamp is the reading of the system
    clock; the blocks are determined by the notes and that reading down to
    the minute. *)
Theorem formatter_determined_by_notes_and_minute
        (now now' : datetime) (notes : string) :
  year now = year now' -> month now = month now' -> day now = day now' ->
  hour now = hour now' -> minute now = minute now' ->
  _format_notes_as_blocks now notes = _format_notes_as_blocks now' notes.
Proof.
  intros Hy Hm Hd Hh Hn. rewrite !format_in_paragraph_order.
  unfold timestamp_heading, strftime_Ymd_HM.
  now rewrite Hy, Hm, Hd, Hh, Hn.
Qed.

Lemma formatter_determined_by_notes_and_minute_witness :
  _format_notes_as_blocks t0 "# Title" = _format_notes_as_blocks t1 "# Title".
Proof.
  apply (formatter_determined_by_notes_and_minute t0 t1 "# Title");
    reflexivity.
Defined.

(** C8 as stated fails: the caller passes the notes only, and the same notes
    give different blocks at different clock readings, here in two calls of
    [create_page_with_notes] with the same arguments. *)
Lemma same_notes_different_clock :
  _format_notes_as_blocks t0 EmptyString
  <> _format_notes_as_blocks t2 EmptyString
  /\ sent_by (create_page_with_notes sample_self "T" EmptyString None) w0
     <> sent_by (create_page_with_notes sample_self "T" EmptyString None)
                (mkWorld t2 sample_server []).
Proof. split; discriminate. Qed.

(** ** The formatter on small inputs *)

Example format_title (now : datetime) :
  _format_notes_as_blocks now "# Title"
  = Ok [timestamp_heading now; Heading 1 "Title"].
Proof. rewrite format_in_paragraph_order. reflexivity. Qed.

Example format_sub (now : datetime) :
  _format_notes_as_blocks now "### Sub"
  = Ok [timestamp_heading now; Heading 3 "Sub"].
Proof. rewrite format_in_paragraph_order. reflexivity. Qed.

Example format_five_hashes (now : datetime) :
  _format_notes_as_blocks now "##### Deep"
  = Ok [timestamp_heading now; Heading 3 "Deep"].
Proof. rewrite format_in_paragraph_order. reflexivity. Qed.

Example format_bullets (now : datetime) :
  _format_notes_as_blocks now ("- a" ++ nl ++ "- b")
  = Ok [timestamp_heading now; BulletItem "a"; BulletItem "b"].
Proof. rewrite format_in_paragraph_order. reflexivity. Qed.

Example format_two_paragraphs (now : datetime) :
  _format_notes_as_blocks now ("Para one" ++ nl ++ nl ++ "Para two")
  = Ok [timestamp_heading now; Paragraph "Para one"; Paragraph "Para two"].
Proof. rewrite format_in_paragraph_order. reflexivity. Qed.

Example split_empty_separator :
  split "a b" EmptyString = Raise (ValueError "empty separator").
Proof. reflexivity. Qed.

(** ** The requests of the note-taking calls *)

Lemma skipn_past_prefix {A : Type} (l r : list A) :
  skipn (List.length l) (l ++ r)%list = r.
Proof. induction l as [|a l IH]; simpl; [reflexivity | exact IH]. Qed.

(** Once the tags are resolved, the first thing [create_page_with_notes]
    does is to post the page with them. *)
Lemma create_page_posts_first (self : NotionIntegration)
      (title notes : string) (tags : option (list string)) (w : world)
      (t : list string) :
  resolved_tags self tags = Ok t ->
  exists rest,
    sent_by (create_page_with_notes self title notes tags) w
    = POST (base_url self ++ "/pages") (self_headers self)
           {| parent_database_id := default_db self;
              title_content := title;
              multi_select := map mkSelectOption t |} :: rest.
Proof.
  unfold resolved_tags, sent_by, create_page_with_notes. intros Ht.
  unfold io_bind at 1.
  assert (E : (if falsy tags then lift (config_default_tags self)
               else ret match tags with Some t0 => t0 | None => [] end) w
              = (Ok t, w)).
  { destruct (falsy tags); unfold lift, ret; now rewrite Ht. }
  rewrite E. clear E Ht.
  unfold io_bind, requests_post, requests_patch, send, lift, ret,
    datetime_now.
  repeat (cbn [snd sent clock server];
          match goal with
          | |- context [if ?b then _ else _] => destruct b
          | |- context [match ?x with Ok _ => _ | Raise _ => _ end] =>
              destruct x
          end);
    cbn [snd sent clock server];
    first [ exists []; apply skipn_past_prefix
          | eexists; rewrite <- app_assoc; apply skipn_past_prefix ].
Qed.

(** C9: when [tags] is omitted, [None] or the empty list, the page is posted
    with the configuration's [default_tags]; a non-empty [tags] is posted as
    given. *)
Theorem tags_default_when_falsy (self : NotionIntegration)
        (title notes : string) (tags : option (list string)) (w : world) :
  (forall d,
      tags = None \/ tags = Some [] ->
      default_tags (config self) = Some d ->
      exists rest,
        sent_by (create_page_with_notes self title notes tags) w
        = POST (base_url self ++ "/pages") (self_headers self)
               {| parent_database_id := default_db self;
                  title_content := title;
                  multi_select := map mkSelectOption d |} :: rest)
  /\ (forall t,
        tags = Some t -> t <> [] ->
        exists rest,
          sent_by (create_page_with_notes self title notes tags) w
          = POST (base_url self ++ "/pages") (self_headers self)
                 {| parent_database_id := default_db self;
                    title_content := title;
                    multi_select := map mkSelectOption t |} :: rest).
Proof.
  split.
  - intros d Hf Hd. apply create_page_posts_first.
    unfold resolved_tags, config_default_tags.
    destruct Hf as [-> | ->]; cbn [falsy]; now rewrite Hd.
  - intros t -> Hne. apply create_page_posts_first.
    unfold resolved_tags. destruct t; [contradiction | reflexivity].
Qed.

Lemma tags_default_when_falsy_witness :
  (exists rest,
      sent_by (create_page_with_notes sample_self "T" "# H" (Some [])) w0
      = POST "https://api.notion.com/v1/pages" (self_headers sample_self)
             {| parent_database_id := "db1"; title_content := "T";
                multi_select := [mkSelectOption "NOTES"] |} :: rest)
  /\ (exists rest,
        sent_by (create_page_with_notes sample_self "T" "# H"
                   (Some ["WORK"])) w0
        = POST "https://api.notion.com/v1/pages" (self_headers sample_self)
               {| parent_database_id := "db1"; title_content := "T";
                  multi_select := [mkSelectOption "WORK"] |} :: rest).
Proof.
  split.
  - apply (proj1 (tags_default_when_falsy sample_self "T" "# H" (Some []) w0)
                 ["NOTES"]); [right; reflexivity | reflexivity].
  - apply (proj2 (tags_default_when_falsy sample_self "T" "# H"
                    (Some ["WORK"]) w0) ["WORK"]);
      [reflexivity | discriminate].
Defined.

(** C10: [quick_note] posts a page whose title is the first line of the
    trimmed content when that line has at most 50 characters, its first 50
    characters followed by "..." when it has more than 50 and fewer than
    100, and "Quick Note - " followed by the clock reading otherwise; the
    tags posted are DAILY and PRODUCTIVITY in every case. *)
Theorem quick_note_title_and_tags (self : NotionIntegration)
        (content : string) (w : world) :
  let line0 := first_line (strip content) in
  exists title rest,
    sent_by (quick_note self content) w
    = POST (base_url self ++ "/pages") (self_headers self)
           {| parent_database_id := default_db self;
              title_content := title;
              multi_select := [mkSelectOption "DAILY";
                               mkSelectOption "PRODUCTIVITY"] |} :: rest
    /\ ((len line0 <= 50)%Z -> title = line0)
    /\ ((50 < len line0 < 100)%Z -> title = slice_to 50 line0 ++ "...")
    /\ ((100 <= len line0)%Z ->
        title = "Quick Note - " ++ strftime_Ymd_HM (clock w)).
Proof.
  intros line0.
  destruct (lines_of_first_line (strip content)) as [more Hl].
  fold line0 in Hl.
  set (title := if (len line0 <? 100)%Z
                then if (len line0 >? 50)%Z
                     then slice_to 50 line0 ++ "..." else line0
                else "Quick Note - " ++ strftime_Ymd_HM (clock w)).
  assert (Hq : quick_note self content w
               = create_page_with_notes self title content
                   (Some ["DAILY"; "PRODUCTIVITY"]) w).
  { unfold quick_note. rewrite split_nl, Hl.
    unfold io_bind at 1. unfold lift at 1.
    unfold io_bind at 1. subst title.
    destruct (len line0 <? 100)%Z; reflexivity. }
  destruct (create_page_posts_first self title content
              (Some ["DAILY"; "PRODUCTIVITY"]) w
              ["DAILY"; "PRODUCTIVITY"] eq_refl) as [rest Hrest].
  exists title, rest. split.
  - unfold sent_by in *. rewrite Hq. exact Hrest.
  - subst title. repeat split; intros H.
    + destruct (Z.ltb_spec (len line0) 100); [|lia].
      destruct (Z.gtb_spec (len line0) 50); [lia | reflexivity].
    + destruct (Z.ltb_spec (len line0) 100); [|lia].
      destruct (Z.gtb_spec (len line0) 50); [reflexivity | lia].
    + destruct (Z.ltb_spec (len line0) 100); [lia | reflexivity].
Qed.

Lemma quick_note_title_and_tags_witness :
  (exists title rest,
      sent_by (quick_note sample_self ("hello" ++ nl ++ "world")) w0
      = POST "https://api.notion.com/v1/pages" (self_headers sample_self)
             {| parent_database_id := "db1"; title_content := title;
                multi_select := [mkSelectOption "DAILY";
                                 mkSelectOption "PRODUCTIVITY"] |} :: rest
      /\ title = "hello")
  /\ (exists title rest,
        sent_by (quick_note sample_self line60) w0
        = POST "https://api.notion.com/v1/pages" (self_headers sample_self)
               {| parent_database_id := "db1"; title_content := title;
                  multi_select := [mkSelectOption "DAILY";
                                   mkSelectOption "PRODUCTIVITY"] |} :: rest
        /\ title = "01234567890123456789012345678901234567890123456789...")
  /\ (exists title rest,
        sent_by (quick_note sample_self line100) w0
        = POST "https://api.notion.com/v1/pages" (self_headers sample_self)
               {| parent_database_id := "db1"; title_content := title;
                  multi_select := [mkSelectOption "DAILY";
                                   mkSelectOption "PRODUCTIVITY"] |} :: rest
        /\ title = "Quick Note - 2024-03-09 07:05").
Proof.
  repeat split.
  - destruct (quick_note_title_and_tags sample_self
                ("hello" ++ nl ++ "world") w0)
      as (title & rest & Hs & H & _ & _).
    exists title, rest. split; [exact Hs|].
    apply H. vm_compute. discriminate.
  - destruct (quick_note_title_and_tags sample_self line60 w0)
      as (title & rest & Hs & _ & H & _).
    exists title, rest. split; [exact Hs|].
    apply H. split; reflexivity.
  - destruct (quick_note_title_and_tags sample_self line100 w0)
      as (title & rest & Hs & _ & _ & H).
    exists title, rest. split; [exact Hs|].
    apply H. vm_compute. discriminate.
Defined.

(** ** More on stripping and splitting *)

Lemma lstrip_by_head (p : ascii -> bool) (s : string) :
  lstrip_by p s = EmptyString
  \/ exists c r, lstrip_by p s = String c r /\ p c = false.
Proof.
  induction s as [|c s IH]; simpl; [now left|].
  destruct (p c) eqn:Hc; [exact IH|].
  right. now exists c, s.
Qed.

Lemma rstrip_by_idempotent (p : ascii -> bool) (s : string) :
  rstrip_by p (rstrip_by p s) = rstrip_by p s.
Proof.
  induction s as [|c s IH]; [reflexivity|].
  cbn [rstrip_by]. destruct (rstrip_by p s) as [|d r] eqn:Hr.
  - destruct (p c) eqn:Hc; [reflexivity|].
    cbn [rstrip_by]. now rewrite Hc.
  - cbn [rstrip_by]. cbn [rstrip_by] in IH. now rewrite IH.
Qed.

Lemma strip_by_idempotent (p : ascii -> bool) (s : string) :
  strip_by p (strip_by p s) = strip_by p s.
Proof.
  unfold strip_by.
  destruct (lstrip_by_head p s) as [-> | (c & r & -> & Hc)]; [reflexivity|].
  destruct (rstrip_by_keeps_head p c r Hc) as [r' Hr'].
  rewrite Hr'. cbn [lstrip_by]. rewrite Hc.
  rewrite <- Hr'. apply rstrip_by_idempotent.
Qed.

Lemma strip_idempotent (s : string) : strip (strip s) = strip s.
Proof. apply strip_by_idempotent. Qed.

Lemma rstrip_by_single (p : ascii -> bool) (s : string) (b : ascii) :
  rstrip_by p s = String b EmptyString -> p b = false.
Proof.
  destruct s as [|c s]; [discriminate|].
  cbn [rstrip_by]. destruct (rstrip_by p s) as [|d r].
  - destruct (p c) eqn:Hc; [discriminate|]. now intros [= <-].
  - discriminate.
Qed.

Lemma rstrip_by_pair (p : ascii -> bool) (s : string) (a b : ascii) :
  rstrip_by p s = String a (String b EmptyString) -> p b = false.
Proof.
  destruct s as [|c s]; [discriminate|].
  cbn [rstrip_by]. destruct (rstrip_by p s) as [|d r] eqn:Hr.
  - destruct (p c); discriminate.
  - intros [= _ Hd Hr']. subst. now apply (rstrip_by_single p s).
Qed.

Lemma split_pieces_nonempty (sep : string) (s : string) :
  forall skip, split_pieces sep skip s <> [].
Proof.
  induction s as [|c s IH]; intros skip; [discriminate|].
  cbn [split_pieces]. destruct skip as [|k]; [|apply IH].
  destruct (startswith (String c s) sep); [discriminate|].
  destruct (split_pieces sep 0 s); discriminate.
Qed.

Lemma split_pieces_skip (sep : string) :
  forall k s, (k <= String.length s)%nat ->
    split_pieces sep k s = split_pieces sep 0 (slice_from k s).
Proof.
  induction k as [|k IH]; intros s Hk; [reflexivity|].
  destruct s as [|c s]; [simpl in Hk; lia|].
  cbn [split_pieces slice_from]. apply IH. simpl in Hk. lia.
Qed.

Lemma startswith_decompose (p : string) :
  forall s, startswith s p = true ->
    s = p ++ slice_from (String.length p) s
    /\ (String.length p <= String.length s)%nat.
Proof.
  induction p as [|a p IH]; intros s H; [split; [reflexivity | simpl; lia]|].
  destruct s as [|b s]; [discriminate|].
  cbn [startswith] in H. apply andb_true_iff in H as [Hb Hs].
  apply Ascii.eqb_eq in Hb. subst b.
  destruct (IH s Hs) as [E L]. split.
  - cbn [append String.length slice_from]. now rewrite <- E.
  - simpl. lia.
Qed.

Lemma slice_from_length (k : nat) :
  forall s, String.length (slice_from k s) = (String.length s - k)%nat.
Proof.
  induction k as [|k IH]; intros s; [simpl; lia|].
  destruct s as [|c s]; [reflexivity|]. cbn [slice_from]. rewrite IH.
  reflexivity.
Qed.

Lemma join_cons_head (sep : string) (c : ascii) (p : string)
      (ps : list string) :
  join sep (String c p :: ps) = String c (join sep (p :: ps)).
Proof. destruct ps; reflexivity. Qed.

Lemma join_cons_more (sep p q : string) (qs : list string) :
  join sep (p :: q :: qs) = p ++ sep ++ join sep (q :: qs).
Proof. reflexivity. Qed.

Lemma join_split_pieces (sep : string) :
  truthy sep = true ->
  forall n s, (String.length s <= n)%nat ->
    join sep (split_pieces sep 0 s) = s.
Proof.
  intros Hsep. induction n as [|n IH]; intros s Hn.
  - destruct s; [reflexivity | simpl in Hn; lia].
  - destruct s as [|c s]; [reflexivity|].
    cbn [split_pieces]. destruct (startswith (String c s) sep) eqn:Hp.
    + destruct sep as [|a sep]; [discriminate|].
      destruct (startswith_decompose _ _ Hp) as [E L].
      cbn [String.length slice_from] in E, L.
      replace (String.length (String a sep) - 1)%nat
        with (String.length sep) by (simpl; lia).
      rewrite split_pieces_skip by lia.
      pose proof (split_pieces_nonempty (String a sep)
                    (slice_from (String.length sep) s) 0) as Hne.
      destruct (split_pieces (String a sep) 0
                  (slice_from (String.length sep) s)) as [|q qs] eqn:Hq;
        [congruence|].
      rewrite join_cons_more. rewrite <- Hq. rewrite IH.
      * cbn [append]. cbn [append] in E. now rewrite <- E.
      * rewrite slice_from_length. simpl in Hn. lia.
    + pose proof (split_pieces_nonempty sep s 0) as Hne.
      destruct (split_pieces sep 0 s) as [|q qs] eqn:Hq; [congruence|].
      rewrite join_cons_head. rewrite <- Hq. rewrite IH; [reflexivity|].
      simpl in Hn. lia.
Qed.

Lemma no_occurrence_one_piece (sep : string) :
  truthy sep = true ->
  forall s, occurs sep s = false -> split_pieces sep 0 s = [s].
Proof.
  intros Hsep. induction s as [|c s IH]; intros H; [reflexivity|].
  cbn [occurs] in H. apply orb_false_iff in H as [Hp Ho].
  cbn [split_pieces]. rewrite Hp. now rewrite (IH Ho).
Qed.

(** ** Further properties of the formatter *)

Lemma lstrip_by_all (p : ascii -> bool) (pre s : string) :
  all_chars p pre = true -> lstrip_by p (pre ++ s) = lstrip_by p s.
Proof.
  induction pre as [|c pre IH]; intros H; [reflexivity|].
  cbn [all_chars] in H. apply andb_true_iff in H as [Hc Hp].
  cbn [append lstrip_by]. rewrite Hc. now apply IH.
Qed.

Lemma rstrip_by_all (p : ascii -> bool) (post : string) :
  all_chars p post = true -> rstrip_by p post = EmptyString.
Proof.
  induction post as [|c post IH]; intros H; [reflexivity|].
  cbn [all_chars] in H. apply andb_true_iff in H as [Hc Hp].
  cbn [rstrip_by]. rewrite (IH Hp). now rewrite Hc.
Qed.

Lemma rstrip_by_app_all (p : ascii -> bool) (s post : string) :
  all_chars p post = true -> rstrip_by p (s ++ post) = rstrip_by p s.
Proof.
  intros H. induction s as [|c s IH]; [now apply rstrip_by_all|].
  cbn [append rstrip_by]. now rewrite IH.
Qed.

Lemma strip_by_app_all (p : ascii -> bool) (s post : string) :
  all_chars p post = true -> strip_by p (s ++ post) = strip_by p s.
Proof.
  intros H. unfold strip_by. induction s as [|c s IH].
  - cbn [append lstrip_by rstrip_by].
    destruct (lstrip_by_head p post) as [-> | (c & r & E & Hc)];
      [reflexivity|].
    assert (A : all_chars p (lstrip_by p post) = true).
    { clear E Hc. induction post as [|d post IHp]; [reflexivity|].
      cbn [all_chars] in H. apply andb_true_iff in H as [Hd Hp].
      cbn [lstrip_by]. rewrite Hd. now apply IHp. }
    now apply rstrip_by_all.
  - cbn [append lstrip_by]. destruct (p c); [exact IH|].
    change (String c (s ++ post)) with (String c s ++ post).
    now apply rstrip_by_app_all.
Qed.

Lemma strip_surrounded (pre s post : string) :
  all_chars isspace pre = true -> all_chars isspace post = true ->
  strip (pre ++ s ++ post) = strip s.
Proof.
  intros Hpre Hpost. unfold strip, strip_by at 1.
  rewrite lstrip_by_all by assumption.
  now apply strip_by_app_all.
Qed.

(** X1: white space before and after the notes does not change the blocks. *)
Theorem formatter_ignores_outer_whitespace
        (now : datetime) (pre notes post : string) :
  all_chars isspace pre = true -> all_chars isspace post = true ->
  _format_notes_as_blocks now (pre ++ notes ++ post)
  = _format_notes_as_blocks now notes.
Proof.
  intros Hpre Hpost. unfold _format_notes_as_blocks.
  now rewrite strip_surrounded.
Qed.

Lemma formatter_ignores_outer_whitespace_witness :
  _format_notes_as_blocks t0 ((nl ++ "  ") ++ "# Title" ++ (" " ++ nl))
  = _format_notes_as_blocks t0 "# Title".
Proof.
  apply (formatter_ignores_outer_whitespace t0 (nl ++ "  ") "# Title"
           (" " ++ nl)); reflexivity.
Defined.

Lemma heading_type_known (k : Z) :
  (0 <= k)%Z -> In ("heading_" ++ str (Z.min k 3)) formatter_types.
Proof.
  intros Hk.
  assert (H : (Z.min k 3 = 0 \/ Z.min k 3 = 1 \/ Z.min k 3 = 2
               \/ Z.min k 3 = 3)%Z) by lia.
  destruct H as [-> | [-> | [-> | ->]]]; cbv; tauto.
Qed.

Lemma leading_hashes_nonneg (s : string) : (0 <= leading_hashes s)%Z.
Proof. unfold leading_hashes. lia. Qed.

Lemma bullet_items_known (lines : list string) :
  Forall known_block (bullet_items lines).
Proof.
  unfold bullet_items. apply Forall_forall. intros b Hb.
  apply in_map_iff in Hb as (line & <- & _).
  split; [reflexivity | cbv; tauto].
Qed.

Lemma blocks_of_known (para : string) : Forall known_block (blocks_of para).
Proof.
  destruct (truthy (strip para)) eqn:Ht;
    [|rewrite blocks_of_blank by assumption; constructor].
  destruct (is_list_paragraph para) eqn:Hl.
  - rewrite blocks_of_list by assumption. apply bullet_items_known.
  - destruct (startswith (strip para) "#") eqn:Hh.
    + rewrite blocks_of_heading by assumption.
      constructor; [|constructor]. split; [reflexivity|].
      apply heading_type_known, leading_hashes_nonneg.
    + rewrite blocks_of_plain by assumption.
      constructor; [|constructor]. split; [reflexivity | cbv; tauto].
Qed.

(** X2: every block the formatter returns has ["object": "block"] and one of
    the types [heading_0], [heading_1], [heading_2], [heading_3],
    [bulleted_list_item], [paragraph]: no heading goes beyond level 3. *)
Theorem formatter_block_types (now : datetime) (notes : string) :
  exists blocks,
    _format_notes_as_blocks now notes = Ok blocks
    /\ Forall known_block blocks.
Proof.
  eexists. split; [apply format_in_paragraph_order|].
  constructor; [split; [reflexivity | cbv; tauto]|].
  apply Forall_forall. intros b Hb.
  apply in_flat_map in Hb as (para & _ & Hb).
  pose proof (blocks_of_known para) as H.
  rewrite Forall_forall in H. now apply H.
Qed.

Lemma bullet_line_text_nonempty (line : string) :
  is_bullet_line line = true -> slice_from 2 (strip line) <> EmptyString.
Proof.
  unfold is_bullet_line. intros H E.
  assert (P : exists a, strip line = String a (String " " EmptyString)).
  { apply orb_true_iff in H as [H|H];
      apply startswith_decompose in H as [D _];
      cbn [String.length] in D; rewrite E in D; rewrite D;
      eexists; reflexivity. }
  destruct P as [a Pa]. unfold strip, strip_by in Pa.
  apply rstrip_by_pair in Pa. discriminate.
Qed.

Lemma bullet_items_text_kept (lines : list string) :
  Forall text_kept (bullet_items lines).
Proof.
  unfold bullet_items. apply Forall_forall. intros b Hb.
  apply in_map_iff in Hb as (line & <- & Hl).
  apply filter_In in Hl as [_ Hl].
  split; [discriminate|]. intros _. now apply bullet_line_text_nonempty.
Qed.

Lemma blocks_of_text_kept (para : string) : Forall text_kept (blocks_of para).
Proof.
  destruct (truthy (strip para)) eqn:Ht;
    [|rewrite blocks_of_blank by assumption; constructor].
  destruct (is_list_paragraph para) eqn:Hl.
  - rewrite blocks_of_list by assumption. apply bullet_items_text_kept.
  - destruct (startswith (strip para) "#") eqn:Hh.
    + rewrite blocks_of_heading by assumption.
      constructor; [|constructor]. split; discriminate.
    + rewrite blocks_of_plain by assumption.
      constructor; [|constructor]. split; [|discriminate].
      intros _. cbn [Paragraph text_block content]. split.
      * intros E. rewrite E in Ht. discriminate.
      * apply strip_idempotent.
Qed.

(** X3: in the formatter's output no paragraph block and no bulleted item
    has an empty text, and the text of a paragraph block is trimmed. *)
Theorem formatter_texts_kept (now : datetime) (notes : string) :
  exists blocks,
    _format_notes_as_blocks now notes = Ok blocks
    /\ Forall text_kept blocks.
Proof.
  eexists. split; [apply format_in_paragraph_order|].
  constructor; [split; discriminate|].
  apply Forall_forall. intros b Hb.
  apply in_flat_map in Hb as (para & _ & Hb).
  pose proof (blocks_of_text_kept para) as H.
  rewrite Forall_forall in H. now apply H.
Qed.

(** X4: notes that, once trimmed, are not empty, hold no blank line and
    start with none of "- ", "* " and "#" come out as the timestamp heading
    and one paragraph block holding the trimmed notes. *)
Theorem plain_notes_one_paragraph (now : datetime) (notes : string) :
  truthy (strip notes) = true ->
  occurs (nl ++ nl) (strip notes) = false ->
  startswith (strip notes) "- " = false ->
  startswith (strip notes) "* " = false ->
  startswith (strip notes) "#" = false ->
  _format_notes_as_blocks now notes
  = Ok [timestamp_heading now; Paragraph (strip notes)].
Proof.
  intros Ht Ho Hd Hs Hh. rewrite format_in_paragraph_order.
  unfold paragraphs. rewrite no_occurrence_one_piece by easy.
  cbn [flat_map]. rewrite app_nil_r.
  rewrite blocks_of_plain; rewrite ?strip_idempotent; try assumption.
  - reflexivity.
  - unfold is_list_paragraph. rewrite strip_idempotent. now rewrite Hd, Hs.
Qed.

Lemma plain_notes_one_paragraph_witness :
  _format_notes_as_blocks t0 (" Call Ana" ++ nl ++ "at noon ")
  = Ok [timestamp_heading t0; Paragraph ("Call Ana" ++ nl ++ "at noon")].
Proof.
  apply (plain_notes_one_paragraph t0 (" Call Ana" ++ nl ++ "at noon "));
    reflexivity.
Defined.

(** X5: splitting loses nothing: the pieces [s.split(sep)] returns, joined
    by [sep], are [s]; so the paragraphs joined by blank lines are the
    trimmed notes, and the lines of a paragraph joined by newlines are the
    trimmed paragraph. *)
Theorem split_then_join (s sep : string) (pieces : list string) :
  split s sep = Ok pieces -> join sep pieces = s.
Proof.
  unfold split. destruct sep as [|a sep]; [discriminate|].
  intros [= <-].
  now apply (join_split_pieces (String a sep) eq_refl (String.length s)).
Qed.

Lemma split_then_join_witness :
  join (nl ++ nl) ["Para one"; "Para two"]
  = "Para one" ++ nl ++ nl ++ "Para two".
Proof.
  apply (split_then_join ("Para one" ++ nl ++ nl ++ "Para two") (nl ++ nl)
           ["Para one"; "Para two"]).
  reflexivity.
Defined.

(** ** No piece holds the separator *)

Lemma startswith_app (p : string) :
  forall s t, startswith s p = true -> startswith (s ++ t) p = true.
Proof.
  induction p as [|a p IH]; intros s t H; [reflexivity|].
  destruct s as [|b s]; [discriminate|].
  cbn [startswith append] in *. apply andb_true_iff in H as [Hb Hs].
  rewrite Hb. now apply IH.
Qed.

Lemma append_empty_r (s : string) : s ++ EmptyString = s.
Proof. induction s as [|c s IH]; [reflexivity|]. cbn. now rewrite IH. Qed.

Lemma first_piece_is_prefix (sep s p : string) (ps : list string) :
  truthy sep = true ->
  split_pieces sep 0 s = p :: ps -> exists t, s = p ++ t.
Proof.
  intros Hsep H.
  pose proof (join_split_pieces sep Hsep (String.length s) s (le_n _)) as J.
  rewrite H in J. destruct ps as [|q qs].
  - exists EmptyString. cbn [join] in J. now rewrite append_empty_r.
  - rewrite join_cons_more in J. eexists. symmetry. exact J.
Qed.

Lemma pieces_without_separator (sep : string) :
  truthy sep = true ->
  forall n s, (String.length s <= n)%nat ->
    Forall (fun p => occurs sep p = false) (split_pieces sep 0 s).
Proof.
  intros Hsep. induction n as [|n IH]; intros s Hn.
  - destruct s; [|simpl in Hn; lia].
    constructor; [|constructor]. now destruct sep.
  - destruct s as [|c s]; [constructor; [now destruct sep | constructor]|].
    cbn [split_pieces]. destruct (startswith (String c s) sep) eqn:Hp.
    + constructor; [now destruct sep|].
      destruct sep as [|a sep]; [discriminate|].
      destruct (startswith_decompose _ _ Hp) as [_ L].
      cbn [String.length] in L.
      replace (String.length (String a sep) - 1)%nat
        with (String.length sep) by (simpl; lia).
      rewrite split_pieces_skip by lia. apply IH.
      rewrite slice_from_length. simpl in Hn. lia.
    + assert (Hs : (String.length s <= n)%nat) by (simpl in Hn; lia).
      pose proof (IH s Hs) as F.
      pose proof (split_pieces_nonempty sep s 0) as Hne.
      destruct (split_pieces sep 0 s) as [|q qs] eqn:Hq; [congruence|].
      inversion F as [|? ? Fq Fqs]; subst. constructor; [|assumption].
      cbn [occurs]. rewrite Fq.
      destruct (startswith (String c q) sep) eqn:Hcq; [|reflexivity].
      destruct (first_piece_is_prefix sep s q qs Hsep Hq) as [t ->].
      apply (startswith_app sep (String c q) t) in Hcq.
      cbn [append] in Hcq. congruence.
Qed.

(** X6: no piece [s.split(sep)] returns holds [sep]: no paragraph of the
    notes holds a blank line, and no line of a paragraph or of a quick
    note holds a newline. *)
Theorem split_pieces_hold_no_separator (s sep : string)
        (pieces : list string) :
  split s sep = Ok pieces ->
  Forall (fun p => occurs sep p = false) pieces.
Proof.
  unfold split. destruct sep as [|a sep]; [discriminate|].
  intros [= <-].
  now apply (pieces_without_separator (String a sep) eq_refl
               (String.length s)).
Qed.

Lemma split_pieces_hold_no_separator_witness :
  Forall (fun p => occurs (nl ++ nl) p = false)
         ["a"; nl ++ "b"; EmptyString; "c"].
Proof.
  apply (split_pieces_hold_no_separator
           ("a" ++ nl ++ nl ++ nl ++ "b" ++ nl ++ nl ++ nl ++ nl ++ "c")
           (nl ++ nl)).
  reflexivity.
Defined.

(** ** Further properties of [create_page_with_notes] *)

(** The call, once its tags are resolved, up to the answer to the page
    request. *)
Lemma create_page_after_post (self : NotionIntegration)
      (title notes : string) (tags : option (list string)) (w : world)
      (t : list string) :
  resolved_tags self tags = Ok t ->
  create_page_with_notes self title notes tags w
  = let r1 := server w (page_request self title t) in
    let w1 := after w [page_request self title t] in
    if negb (status_code r1 =? 200)%Z
    then (Ok (Error ("Failed to create page: " ++ text r1)), w1)
    else
      match response_json r1 with
      | Raise e => (Raise e, w1)
      | Ok page =>
          match getitem page "id" with
          | Raise e => (Raise e, w1)
          | Ok page_id =>
              let rq2 := notes_request self page_id (blocks_at w notes) in
              let r2 := server w rq2 in
              let w2 := after w [page_request self title t; rq2] in
              if negb (status_code r2 =? 200)%Z
              then (Ok (Error ("Failed to add notes: " ++ text r2)), w2)
              else
                match getitem page "url" with
                | Raise e => (Raise e, w2)
                | Ok url =>
                    (Ok (Success page_id url title
                                 ("Created page '" ++ title
                                  ++ "' with notes")), w2)
                end
          end
      end.
Proof.
  unfold resolved_tags, create_page_with_notes. intros Ht.
  unfold io_bind at 1.
  assert (E : (if falsy tags then lift (config_default_tags self)
               else ret match tags with Some t0 => t0 | None => [] end) w
              = (Ok t, w)).
  { destruct (falsy tags); unfold lift, ret; now rewrite Ht. }
  rewrite E. clear E Ht. cbv zeta.
  unfold io_bind, requests_post, requests_patch, send, lift, ret,
    datetime_now, page_request, notes_request, blocks_at, after.
  cbn [clock server sent].
  destruct (negb _); [reflexivity|].
  destruct (response_json _) as [page|e]; [|reflexivity].
  destruct (getitem page "id") as [page_id|e]; [|reflexivity].
  rewrite format_in_paragraph_order. cbn [clock server sent].
  rewrite <- app_assoc. cbn [app].
  destruct (negb _); [reflexivity|].
  destruct (getitem page "url"); reflexivity.
Qed.

(** X7: when [tags] is falsy and the configuration has no [default_tags],
    the call raises [KeyError] before any request is sent. *)
Theorem missing_default_tags_raises (self : NotionIntegration)
        (title notes : string) (tags : option (list string)) (w : world) :
  falsy tags = true ->
  default_tags (config self) = None ->
  create_page_with_notes self title notes tags w
  = (Raise (KeyError "default_tags"), w).
Proof.
  intros Hf Hd. unfold create_page_with_notes, config_default_tags.
  unfold io_bind at 1. rewrite Hf, Hd. reflexivity.
Qed.

Lemma missing_default_tags_raises_witness :
  create_page_with_notes self_without_default_tags "T" "# H" None w0
  = (Raise (KeyError "default_tags"), w0).
Proof.
  apply (missing_default_tags_raises self_without_default_tags "T" "# H"
           None w0); reflexivity.
Defined.

(** X8: when the server answers the page request with a status other than
    200, the call returns the error "Failed to create page: " followed by
    the answer's text, and the page request is the only request sent: no
    notes are appended. *)
Theorem page_refused (self : NotionIntegration) (title notes : string)
        (tags : option (list string)) (w : world) (t : list string) :
  resolved_tags self tags = Ok t ->
  status_code (server w (page_request self title t)) <> 200%Z ->
  create_page_with_notes self title notes tags w
  = (Ok (Error ("Failed to create page: "
                ++ text (server w (page_request self title t)))),
     after w [page_request self title t]).
Proof.
  intros Ht Hs. rewrite (create_page_after_post _ _ _ _ _ _ Ht). cbv zeta.
  apply Z.eqb_neq in Hs. now rewrite Hs.
Qed.

Lemma page_refused_witness :
  create_page_with_notes sample_self "T" "# H" None
                         (mkWorld t0 refusing_page [])
  = (Ok (Error "Failed to create page: unauthorized"),
     mkWorld t0 refusing_page [page_request sample_self "T" ["NOTES"]]).
Proof.
  apply (page_refused sample_self "T" "# H" None
           (mkWorld t0 refusing_page []) ["NOTES"]);
    [reflexivity | discriminate].
Defined.

(** X9: when both requests are answered with status 200 and the first
    answer is a JSON object with an [id] and a [url], the call returns
    success with that id and url and the message "Created page '<title>'
    with notes"; it has sent the page request and then one request that
    appends to [/blocks/<id>/children] the formatter's blocks for the
    notes. *)
Theorem page_created (self : NotionIntegration) (title notes : string)
        (tags : option (list string)) (w : world) (t : list string)
        (page : list (string * string)) (page_id url : string) :
  resolved_tags self tags = Ok t ->
  status_code (server w (page_request self title t)) = 200%Z ->
  body (server w (page_request self title t)) = Some page ->
  getitem page "id" = Ok page_id ->
  getitem page "url" = Ok url ->
  status_code (server w (notes_request self page_id (blocks_at w notes)))
  = 200%Z ->
  create_page_with_notes self title notes tags w
  = (Ok (Success page_id url title
                 ("Created page '" ++ title ++ "' with notes")),
     after w [page_request self title t;
              notes_request self page_id (blocks_at w notes)])
  /\ _format_notes_as_blocks (clock w) notes = Ok (blocks_at w notes).
Proof.
  intros Ht H1 Hb Hi Hu H2. split; [|apply format_in_paragraph_order].
  rewrite (create_page_after_post _ _ _ _ _ _ Ht). cbv zeta.
  unfold response_json. now rewrite H1, Hb, Hi, H2, Hu.
Qed.

Lemma page_created_witness :
  create_page_with_notes sample_self "T" "# H" None w0
  = (Ok (Success "p1" "https://notion.so/p1" "T"
                 "Created page 'T' with notes"),
     after w0 [page_request sample_self "T" ["NOTES"];
               notes_request sample_self "p1" (blocks_at w0 "# H")])
  /\ _format_notes_as_blocks (clock w0) "# H" = Ok (blocks_at w0 "# H").
Proof.
  apply (page_created sample_self "T" "# H" None w0 ["NOTES"]
           [("id", "p1"); ("url", "https://notion.so/p1")]);
    reflexivity.
Defined.

(** X10: when the page request is answered with status 200 and an [id] but
    the request that appends the notes is answered with another status, the
    call returns the error "Failed to add notes: " followed by that
    answer's text; both requests have been sent, so the page exists
    without its notes. *)
Theorem notes_refused (self : NotionIntegration) (title notes : string)
        (tags : option (list string)) (w : world) (t : list string)
        (page : list (string * string)) (page_id : string) :
  resolved_tags self tags = Ok t ->
  status_code (server w (page_request self title t)) = 200%Z ->
  body (server w (page_request self title t)) = Some page ->
  getitem page "id" = Ok page_id ->
  status_code (server w (notes_request self page_id (blocks_at w notes)))
  <> 200%Z ->
  create_page_with_notes self title notes tags w
  = (Ok (Error ("Failed to add notes: "
                ++ text (server w (notes_request self page_id
                                                 (blocks_at w notes))))),
     after w [page_request self title t;
              notes_request self page_id (blocks_at w notes)]).
Proof.
  intros Ht H1 Hb Hi H2.
  rewrite (create_page_after_post _ _ _ _ _ _ Ht). cbv zeta.
  unfold response_json. apply Z.eqb_neq in H2.
  now rewrite H1, Hb, Hi, H2.
Qed.

Lemma notes_refused_witness :
  create_page_with_notes sample_self "T" "# H" None
                         (mkWorld t0 refusing_notes [])
  = (Ok (Error "Failed to add notes: bad blocks"),
     mkWorld t0 refusing_notes
       [page_request sample_self "T" ["NOTES"];
        notes_request sample_self "p1"
          (blocks_at (mkWorld t0 refusing_notes []) "# H")]).
Proof.
  apply (notes_refused sample_self "T" "# H" None
           (mkWorld t0 refusing_notes []) ["NOTES"]
           [("id", "p1"); ("url", "https://notion.so/p1")] "p1");
    [reflexivity | reflexivity | reflexivity | reflexivity | discriminate].
Defined.

(** X11: a page request answered with status 200 but without a JSON body,
    or with a JSON object that has no [id], makes the call raise
    ([JSONDecodeError], respectively [KeyError] on "id") once the page
    request is sent; nothing is appended. *)
Theorem page_answer_unusable (self : NotionIntegration)
        (title notes : string) (tags : option (list string)) (w : world)
        (t : list string) :
  resolved_tags self tags = Ok t ->
  status_code (server w (page_request self title t)) = 200%Z ->
  (body (server w (page_request self title t)) = None ->
   create_page_with_notes self title notes tags w
   = (Raise JSONDecodeError, after w [page_request self title t]))
  /\ (forall page,
        body (server w (page_request self title t)) = Some page ->
        (forall v, ~ In ("id", v) page) ->
        create_page_with_notes self title notes tags w
        = (Raise (KeyError "id"), after w [page_request self title t])).
Proof.
  intros Ht H1. rewrite (create_page_after_post _ _ _ _ _ _ Ht). cbv zeta.
  unfold response_json. rewrite H1. cbn [Z.eqb Pos.eqb negb]. split.
  - now intros ->.
  - intros page -> Hno.
    assert (E : getitem page "id" = Raise (KeyError "id")).
    { induction page as [|[k v] page IH]; [reflexivity|].
      cbn [getitem]. destruct (String.eqb_spec k "id") as [-> | Hk].
      - exfalso. apply (Hno v). now left.
      - apply IH. intros v' Hin. apply (Hno v'). now right. }
    now rewrite E.
Qed.

Lemma page_answer_unusable_witness :
  create_page_with_notes sample_self "T" "# H" None
                         (mkWorld t0 answering_without_body [])
  = (Raise JSONDecodeError,
     mkWorld t0 answering_without_body
             [page_request sample_self "T" ["NOTES"]])
  /\ create_page_with_notes sample_self "T" "# H" None
                            (mkWorld t0 answering_without_id [])
     = (Raise (KeyError "id"),
        mkWorld t0 answering_without_id
                [page_request sample_self "T" ["NOTES"]]).
Proof.
  split.
  - apply (proj1 (page_answer_unusable sample_self "T" "# H" None
                    (mkWorld t0 answering_without_body []) ["NOTES"]
                    eq_refl eq_refl)).
    reflexivity.
  - apply (proj2 (page_answer_unusable sample_self "T" "# H" None
                    (mkWorld t0 answering_without_id []) ["NOTES"]
                    eq_refl eq_refl)
                 [("url", "https://notion.so/p1")]); [reflexivity|].
    intros v [H|[]]. discriminate.
Defined.

(** X12: the [url] of the page is read last: when the first answer has an
    [id] but no [url] and both requests are answered with status 200, the
    call raises [KeyError] on "url" after the page is created and the
    notes are appended. *)
Theorem url_read_last (self : NotionIntegration) (title notes : string)
        (tags : option (list string)) (w : world) (t : list string)
        (page : list (string * string)) (page_id : string) :
  resolved_tags self tags = Ok t ->
  status_code (server w (page_request self title t)) = 200%Z ->
  body (server w (page_request self title t)) = Some page ->
  getitem page "id" = Ok page_id ->
  getitem page "url" = Raise (KeyError "url") ->
  status_code (server w (notes_request self page_id (blocks_at w notes)))
  = 200%Z ->
  create_page_with_notes self title notes tags w
  = (Raise (KeyError "url"),
     after w [page_request self title t;
              notes_request self page_id (blocks_at w notes)]).
Proof.
  intros Ht H1 Hb Hi Hu H2.
  rewrite (create_page_after_post _ _ _ _ _ _ Ht). cbv zeta.
  unfold response_json. now rewrite H1, Hb, Hi, H2, Hu.
Qed.

Lemma url_read_last_witness :
  create_page_with_notes sample_self "T" "# H" None
                         (mkWorld t0 answering_without_url [])
  = (Raise (KeyError "url"),
     mkWorld t0 answering_without_url
       [page_request sample_self "T" ["NOTES"];
        notes_request sample_self "p1"
          (blocks_at (mkWorld t0 answering_without_url []) "# H")]).
Proof.
  apply (url_read_last sample_self "T" "# H" None
           (mkWorld t0 answering_without_url []) ["NOTES"]
           [("id", "p1")] "p1"); reflexivity.
Defined.

(** X13: as long as the transport does not fail and every answer carries
    either no JSON or a JSON object of strings, the requests a call adds
    to those sent before are none, or the page request alone, or the page
    request followed by one request that appends the formatter's blocks to
    the page whose [id] the server returned with status 200: notes are
    never appended without a page created by the same call. *)
Theorem requests_of_create_page (self : NotionIntegration)
        (title notes : string) (tags : option (list string)) (w : world) :
  exists rqs,
    sent (snd (create_page_with_notes self title notes tags w))
    = (sent w ++ rqs)%list
    /\ (rqs = []
        \/ (exists t, rqs = [page_request self title t])
        \/ (exists t page page_id blocks,
               rqs = [page_request self title t;
                      notes_request self page_id blocks]
               /\ _format_notes_as_blocks (clock w) notes = Ok blocks
               /\ status_code (server w (page_request self title t)) = 200%Z
               /\ body (server w (page_request self title t)) = Some page
               /\ getitem page "id" = Ok page_id)).
Proof.
  destruct (resolved_tags self tags) as [t|e] eqn:Ht.
  - rewrite (create_page_after_post _ _ _ _ _ _ Ht). cbv zeta.
    destruct (Z.eqb_spec (status_code (server w (page_request self title t)))
                200) as [H1|H1]; cbn [negb];
      [|exists [page_request self title t]; split;
        [reflexivity | right; left; now exists t]].
    unfold response_json.
    destruct (body (server w (page_request self title t)))
      as [page|] eqn:Hb;
      [|exists [page_request self title t]; split;
        [reflexivity | right; left; now exists t]].
    destruct (getitem page "id") as [page_id|e] eqn:Hi;
      [|exists [page_request self title t]; split;
        [reflexivity | right; left; now exists t]].
    exists [page_request self title t;
            notes_request self page_id (blocks_at w notes)].
    split.
    + destruct (negb _); [reflexivity|].
      destruct (getitem page "url"); reflexivity.
    + right; right. exists t, page, page_id, (blocks_at w notes).
      repeat split; try assumption. apply format_in_paragraph_order.
  - exists []. rewrite app_nil_r. split; [|now left].
    unfold resolved_tags in Ht. unfold create_page_with_notes.
    unfold io_bind at 1.
    destruct (falsy tags); [|discriminate].
    unfold lift. now rewrite Ht.
Qed.

(** ** Further properties of [quick_note] *)

Lemma quick_note_as_create (self : NotionIntegration) (content : string)
      (w : world) :
  quick_note self content w
  = create_page_with_notes self (quick_title (clock w) content) content
                           (Some ["DAILY"; "PRODUCTIVITY"]) w.
Proof.
  destruct (lines_of_first_line (strip content)) as [more Hl].
  unfold quick_note, quick_title. rewrite split_nl, Hl.
  unfold io_bind at 1. unfold lift at 1.
  unfold io_bind at 1. cbv zeta.
  destruct (len (first_line (strip content)) <? 100)%Z; reflexivity.
Qed.

Lemma length_app (s t : string) :
  String.length (s ++ t) = (String.length s + String.length t)%nat.
Proof. induction s as [|c s IH]; [reflexivity|]. cbn. now rewrite IH. Qed.

Lemma slice_to_length (n : nat) :
  forall s, (String.length (slice_to n s) <= n)%nat.
Proof.
  induction n as [|n IH]; intros s; [simpl; lia|].
  destruct s as [|c s]; [simpl; lia|]. cbn. specialize (IH s). lia.
Qed.

Lemma strftime_length (dt : datetime) :
  String.length (strftime_Ymd_HM dt) = 16%nat.
Proof. reflexivity. Qed.

Lemma mem_char_app (c : ascii) (s t : string) :
  mem_char c (s ++ t) = mem_char c s || mem_char c t.
Proof.
  induction s as [|d s IH]; [reflexivity|].
  cbn [append mem_char]. rewrite IH. now rewrite orb_assoc.
Qed.

Lemma first_line_no_newline (s : string) : mem_char LF (first_line s) = false.
Proof.
  induction s as [|c s IH]; [reflexivity|]. cbn [first_line].
  destruct (Ascii.eqb c LF) eqn:Hc; [reflexivity|].
  cbn [mem_char]. rewrite IH. rewrite Ascii.eqb_sym. now rewrite Hc.
Qed.

Lemma slice_to_no_char (c : ascii) (n : nat) :
  forall s, mem_char c s = false -> mem_char c (slice_to n s) = false.
Proof.
  induction n as [|n IH]; intros s H; [reflexivity|].
  destruct s as [|d s]; [reflexivity|].
  cbn [mem_char slice_to] in *. apply orb_false_iff in H as [Hd Hs].
  rewrite Hd. now apply IH.
Qed.

Lemma digit_not_newline (d : Z) : Ascii.eqb LF (digit d) = false.
Proof.
  pose proof (is_digit_digit d) as H. unfold is_digit in H.
  apply andb_true_iff in H as [H _]. apply Nat.leb_le in H.
  apply Ascii.eqb_neq. intros E. rewrite <- E in H. cbv in H. lia.
Qed.

Lemma strftime_no_newline (dt : datetime) :
  mem_char LF (strftime_Ymd_HM dt) = false.
Proof.
  cbv [strftime_Ymd_HM zero_padded append mem_char].
  rewrite !digit_not_newline. reflexivity.
Qed.

Lemma quick_title_short (now : datetime) (content : string) :
  (len (quick_title now content) <= 53)%Z
  /\ mem_char LF (quick_title now content) = false.
Proof.
  unfold quick_title. cbv zeta.
  set (line0 := first_line (strip content)).
  pose proof (first_line_no_newline (strip content)) as Hn. fold line0 in Hn.
  destruct (Z.ltb_spec (len line0) 100) as [H100|H100].
  - destruct (Z.gtb_spec (len line0) 50) as [H50|H50].
    + split.
      * unfold len. rewrite length_app.
        pose proof (slice_to_length 50 line0). cbn [String.length]. lia.
      * rewrite mem_char_app, slice_to_no_char by assumption. reflexivity.
    + split; [lia | assumption].
  - split.
    + unfold len. rewrite length_app, strftime_length.
      cbn [String.length]. lia.
    + rewrite mem_char_app, strftime_no_newline. reflexivity.
Qed.

(** X14: whatever the content, the title [quick_note] posts has at most 53
    characters and holds no newline. *)
Theorem quick_note_title_is_short (self : NotionIntegration)
        (content : string) (w : world) :
  exists title rest,
    sent_by (quick_note self content) w
    = page_request self title ["DAILY"; "PRODUCTIVITY"] :: rest
    /\ (len title <= 53)%Z
    /\ mem_char LF title = false.
Proof.
  destruct (create_page_posts_first self (quick_title (clock w) content)
              content (Some ["DAILY"; "PRODUCTIVITY"]) w
              ["DAILY"; "PRODUCTIVITY"] eq_refl) as [rest Hrest].
  exists (quick_title (clock w) content), rest. split.
  - unfold sent_by in *. rewrite quick_note_as_create. exact Hrest.
  - apply quick_title_short.
Qed.

(** X15: for a content that is empty or white space only, [quick_note]
    posts a page with the empty title: the "Quick Note - <timestamp>" title
    is not used. *)
Theorem quick_note_blank_content (self : NotionIntegration)
        (content : string) (w : world) :
  strip content = EmptyString ->
  exists rest,
    sent_by (quick_note self content) w
    = page_request self EmptyString ["DAILY"; "PRODUCTIVITY"] :: rest.
Proof.
  intros Hb.
  destruct (create_page_posts_first self (quick_title (clock w) content)
              content (Some ["DAILY"; "PRODUCTIVITY"]) w
              ["DAILY"; "PRODUCTIVITY"] eq_refl) as [rest Hrest].
  exists rest. unfold sent_by in *. rewrite quick_note_as_create.
  rewrite Hrest. unfold quick_title. now rewrite Hb.
Qed.

Lemma quick_note_blank_content_witness :
  exists rest,
    sent_by (quick_note sample_self ("  " ++ nl)) w0
    = page_request sample_self EmptyString ["DAILY"; "PRODUCTIVITY"] :: rest.
Proof.
  apply (quick_note_blank_content sample_self ("  " ++ nl) w0). reflexivity.
Defined.

(** X16: [quick_note] passes the whole content on as the notes, first line
    included: when the first line of the trimmed content has fewer than
    100 characters, so that the title comes from the content, and the
    server accepts both requests, the call returns success with that
    title, and the blocks appended are the formatter's blocks for the
    whole content. *)
Theorem quick_note_created (self : NotionIntegration) (content : string)
        (w : world) (page : list (string * string)) (page_id url : string) :
  let line0 := first_line (strip content) in
  let title :=
    if (len line0 >? 50)%Z then slice_to 50 line0 ++ "..." else line0 in
  let rq := page_request self title ["DAILY"; "PRODUCTIVITY"] in
  (len line0 < 100)%Z ->
  status_code (server w rq) = 200%Z ->
  body (server w rq) = Some page ->
  getitem page "id" = Ok page_id ->
  getitem page "url" = Ok url ->
  status_code (server w (notes_request self page_id (blocks_at w content)))
  = 200%Z ->
  quick_note self content w
  = (Ok (Success page_id url title
                 ("Created page '" ++ title ++ "' with notes")),
     after w [rq; notes_request self page_id (blocks_at w content)])
  /\ _format_notes_as_blocks (clock w) content = Ok (blocks_at w content).
Proof.
  intros line0 title rq Hshort H1 Hb Hi Hu H2.
  split; [|apply format_in_paragraph_order].
  rewrite quick_note_as_create.
  assert (Et : quick_title (clock w) content = title).
  { unfold quick_title. cbv zeta. fold line0.
    destruct (Z.ltb_spec (len line0) 100); [reflexivity | lia]. }
  rewrite Et.
  pose proof (create_page_after_post self title content
                (Some ["DAILY"; "PRODUCTIVITY"]) w
                ["DAILY"; "PRODUCTIVITY"] eq_refl) as E.
  rewrite E. cbv zeta. fold rq.
  unfold response_json. now rewrite H1, Hb, Hi, H2, Hu.
Qed.

Lemma quick_note_created_witness :
  quick_note sample_self ("hello" ++ nl ++ "world") w0
  = (Ok (Success "p1" "https://notion.so/p1" "hello"
                 "Created page 'hello' with notes"),
     after w0 [page_request sample_self "hello" ["DAILY"; "PRODUCTIVITY"];
               notes_request sample_self "p1"
                 (blocks_at w0 ("hello" ++ nl ++ "world"))])
  /\ _format_notes_as_blocks (clock w0) ("hello" ++ nl ++ "world")
     = Ok (blocks_at w0 ("hello" ++ nl ++ "world")).
Proof.
  apply (quick_note_created sample_self ("hello" ++ nl ++ "world") w0
           [("id", "p1"); ("url", "https://notion.so/p1")]);
    reflexivity.
Defined.

(** ** Properties of [list_recent_pages] *)

(** The call up to the answer to its request. *)
Lemma list_recent_pages_after_post (self : NotionIntegration)
      (limit : option Z) (w : Net.world) :
  Listing.list_recent_pages self limit w
  = let w1 := net_after w [query_request self limit] [] in
    match Net.server w (query_request self limit) with
    | Net.Failure msg => (Json.Exc (Json.RequestException msg), w1)
    | Net.Answer r =>
        if negb (Net.status_code r =? 200)%Z then
          (Json.Ret (Json.JDict
                       [("error",
                         Json.JStr ("Failed to list pages: "
                                    ++ Net.text r))]), w1)
        else
          match Net.parsed r with
          | None => (Json.Exc Json.JSONDecodeError, w1)
          | Some result =>
              match Json.bind (Json.getitem result "results") Json.iter with
              | Json.Exc e => (Json.Exc e, w1)
              | Json.Ret items =>
                  match Json.for_each items [] Listing.page_entry with
                  | Json.Exc e => (Json.Exc e, w1)
                  | Json.Ret pages =>
                      (Json.Ret (Json.JDict [("pages", Json.JList pages)]),
                       w1)
                  end
              end
          end
    end.
Proof.
  unfold Listing.list_recent_pages, Net.io_bind, Net.requests_post,
    Net.requests_send, Net.lift, Net.ret, Net.response_json, net_after,
    query_request.
  cbv zeta. rewrite app_nil_r.
  destruct (Net.server w _) as [r|msg]; [|reflexivity].
  destruct (negb _); [reflexivity|].
  destruct (Net.parsed r) as [result|]; [|reflexivity].
  destruct (Json.getitem result "results") as [results|e]; [|reflexivity].
  cbn [Json.bind].
  destruct (Json.iter results) as [items|e]; [|reflexivity].
  destruct (Json.for_each items [] Listing.page_entry); reflexivity.
Qed.

(** X17: [list_recent_pages] sends one request whatever the answer: a POST
    to [/databases/<default database>/query] that asks for the pages by
    descending time of last edit, [limit] of them, 5 when [limit] is
    omitted; it prints nothing. *)
Theorem listing_sends_one_query (self : NotionIntegration)
        (limit : option Z) (w : Net.world) :
  snd (Listing.list_recent_pages self limit w)
  = net_after w [query_request self limit] [].
Proof.
  rewrite list_recent_pages_after_post. cbv zeta.
  destruct (Net.server w _) as [r|msg]; [|reflexivity].
  destruct (negb _); [reflexivity|].
  destruct (Net.parsed r) as [result|]; [|reflexivity].
  destruct (Json.bind _ _) as [items|e]; [|reflexivity].
  destruct (Json.for_each items [] Listing.page_entry); reflexivity.
Qed.

(** X18: when the answer has a status other than 200, the call returns
    [{"error": "Failed to list pages: <text of the answer>"}]. *)
Theorem listing_refused (self : NotionIntegration) (limit : option Z)
        (w : Net.world) (r : Net.response) :
  Net.server w (query_request self limit) = Net.Answer r ->
  Net.status_code r <> 200%Z ->
  fst (Listing.list_recent_pages self limit w)
  = Json.Ret (Json.JDict
                [("error",
                  Json.JStr ("Failed to list pages: " ++ Net.text r))]).
Proof.
  intros Hs Hc. rewrite list_recent_pages_after_post. cbv zeta.
  rewrite Hs. apply Z.eqb_neq in Hc. now rewrite Hc.
Qed.

Lemma listing_refused_witness :
  fst (Listing.list_recent_pages sample_self None
         (net0 (answering 404 None)))
  = Json.Ret (Json.JDict
                [("error", Json.JStr "Failed to list pages: body")]).
Proof.
  apply (listing_refused sample_self None (net0 (answering 404 None))
           (Net.mkResponse 404 "body" None)); [reflexivity | discriminate].
Defined.

Lemma page_entry_summarises (acc : list Json.json) (page entry : Json.json) :
  summarises page entry ->
  Listing.page_entry acc page = Json.Ret (acc ++ [entry])%list.
Proof.
  intros (fields & props & pg & titles & id & url & edited & title
          & -> & Hp & Hg & Ht & Hi & Hu & He & Htitle & ->).
  unfold Listing.page_entry. cbv zeta.
  cbn [Json.getitem Json.bind]. rewrite Hp. cbn [Json.getitem Json.bind].
  rewrite Hg. cbn [Json.getitem Json.bind]. rewrite Ht.
  cbn [Json.getitem Json.bind].
  destruct Htitle as [[-> ->] | (first & rest & -> & Hf)].
  - cbn [Json.truth Json.bind]. now rewrite Hi, Hu, He.
  - cbn [Json.truth Json.bind Json.getitem0 Json.getitem].
    rewrite Hf. cbn [Json.bind]. now rewrite Hi, Hu, He.
Qed.

Lemma for_each_page_entry (pages : list Json.json) :
  forall entries acc,
    Forall2 summarises pages entries ->
    Json.for_each pages acc Listing.page_entry
    = Json.Ret (acc ++ entries)%list.
Proof.
  induction pages as [|page pages IH]; intros entries acc H;
    inversion H as [|? entry ? entries' Hs Hrest]; subst.
  - cbn. now rewrite app_nil_r.
  - cbn [Json.for_each]. rewrite (page_entry_summarises acc page entry Hs).
    cbn [Json.bind]. rewrite (IH entries' _ Hrest).
    now rewrite <- app_assoc.
Qed.

(** X19: when the answer has status 200 and its body is an object whose
    [results] is a list of pages, each with [id], [url],
    [last_edited_time] and a title list under [properties.Page.title], the
    call returns [{"pages": entries}] with one entry per page, in the order
    of the results; the title of an entry is "Untitled" when the page's
    title list is empty, and the [plain_text] of its first element
    otherwise. *)
Theorem listing_summarises (self : NotionIntegration) (limit : option Z)
        (w : Net.world) (r : Net.response) (result : Json.json)
        (pages entries : list Json.json) :
  Net.server w (query_request self limit) = Net.Answer r ->
  Net.status_code r = 200%Z ->
  Net.parsed r = Some result ->
  Json.getitem result "results" = Json.Ret (Json.JList pages) ->
  Forall2 summarises pages entries ->
  fst (Listing.list_recent_pages self limit w)
  = Json.Ret (Json.JDict [("pages", Json.JList entries)]).
Proof.
  intros Hs Hc Hp Hr Hf. rewrite list_recent_pages_after_post. cbv zeta.
  rewrite Hs, Hc, Hp, Hr. cbn [Z.eqb Pos.eqb negb Json.bind Json.iter].
  now rewrite (for_each_page_entry pages entries [] Hf).
Qed.

Lemma titled_page_summary :
  summarises titled_page
    (Json.JDict [("id", Json.JStr "p1"); ("title", Json.JStr "Plan");
                 ("url", Json.JStr "https://notion.so/p1");
                 ("last_edited", Json.JStr "2024-03-09T07:05:00.000Z")]).
Proof.
  unfold summarises, titled_page.
  do 8 eexists. repeat split; try reflexivity.
  right. do 2 eexists. split; reflexivity.
Defined.

Lemma untitled_page_summary :
  summarises untitled_page
    (Json.JDict [("id", Json.JStr "p2"); ("title", Json.JStr "Untitled");
                 ("url", Json.JStr "https://notion.so/p2");
                 ("last_edited", Json.JStr "2024-03-08T10:00:00.000Z")]).
Proof.
  unfold summarises, untitled_page.
  do 8 eexists. repeat split; try reflexivity.
  left. split; reflexivity.
Defined.

Lemma listing_summarises_witness :
  fst (Listing.list_recent_pages sample_self None
         (net0 (answering 200 (Some two_pages))))
  = Json.Ret
      (Json.JDict
         [("pages",
           Json.JList
             [Json.JDict
                [("id", Json.JStr "p1"); ("title", Json.JStr "Plan");
                 ("url", Json.JStr "https://notion.so/p1");
                 ("last_edited", Json.JStr "2024-03-09T07:05:00.000Z")];
              Json.JDict
                [("id", Json.JStr "p2"); ("title", Json.JStr "Untitled");
                 ("url", Json.JStr "https://notion.so/p2");
                 ("last_edited",
                  Json.JStr "2024-03-08T10:00:00.000Z")]])]).
Proof.
  apply (listing_summarises sample_self None
           (net0 (answering 200 (Some two_pages)))
           (Net.mkResponse 200 "body" (Some two_pages)) two_pages
           [titled_page; untitled_page]);
    try reflexivity.
  constructor; [exact titled_page_summary|].
  constructor; [exact untitled_page_summary | constructor].
Defined.

Lemma page_entry_raises_anywhere (page : Json.json) (e : Json.error) :
  Listing.page_entry [] page = Json.Exc e ->
  forall acc, Listing.page_entry acc page = Json.Exc e.
Proof.
  unfold Listing.page_entry. cbv zeta. intros H acc.
  repeat match goal with
         | H : context [Json.bind ?m _] |- _ =>
             destruct m; cbn [Json.bind] in H |- *
         | H : context [if ?b then _ else _] |- _ => destruct b
         end;
    try discriminate; assumption.
Qed.

Lemma for_each_page_entry_raises (pages : list Json.json)
      (page : Json.json) (e0 : Json.error) :
  In page pages ->
  Listing.page_entry [] page = Json.Exc e0 ->
  forall acc, exists e,
    Json.for_each pages acc Listing.page_entry = Json.Exc e.
Proof.
  intros Hin He. induction pages as [|p pages IH]; [contradiction|].
  intros acc. cbn [Json.for_each].
  destruct Hin as [-> | Hin].
  - rewrite (page_entry_raises_anywhere page e0 He acc). now exists e0.
  - destruct (Listing.page_entry acc p) as [acc'|e]; cbn [Json.bind].
    + now apply IH.
    + now exists e.
Qed.

(** X20: the listing is all or nothing: when the answer has status 200 and
    a list of results, and the summary of one of the pages fails (a key is
    missing, say), the call raises and returns no list, whatever the other
    pages are. *)
Theorem listing_all_or_nothing (self : NotionIntegration) (limit : option Z)
        (w : Net.world) (r : Net.response) (result : Json.json)
        (pages : list Json.json) (page : Json.json) (e0 : Json.error) :
  Net.server w (query_request self limit) = Net.Answer r ->
  Net.status_code r = 200%Z ->
  Net.parsed r = Some result ->
  Json.getitem result "results" = Json.Ret (Json.JList pages) ->
  In page pages ->
  Listing.page_entry [] page = Json.Exc e0 ->
  exists e, fst (Listing.list_recent_pages self limit w) = Json.Exc e.
Proof.
  intros Hs Hc Hp Hr Hin He. rewrite list_recent_pages_after_post. cbv zeta.
  rewrite Hs, Hc, Hp, Hr. cbn [Z.eqb Pos.eqb negb Json.bind Json.iter].
  destruct (for_each_page_entry_raises pages page e0 Hin He []) as [e ->].
  now exists e.
Qed.

Lemma listing_all_or_nothing_witness :
  exists e,
    fst (Listing.list_recent_pages sample_self None
           (net0 (answering 200 (Some broken_pages))))
    = Json.Exc e.
Proof.
  apply (listing_all_or_nothing sample_self None
           (net0 (answering 200 (Some broken_pages)))
           (Net.mkResponse 200 "body" (Some broken_pages)) broken_pages
           [titled_page; page_without_url] page_without_url
           (Json.KeyError (Json.JStr "url")));
    try reflexivity.
  right; left; reflexivity.
Defined.

(** ** Properties of [notion_helper.py] *)

Ltac run_main :=
  unfold NotionHelper.main, NotionHelper.search,
    NotionHelper.list_databases, NotionHelper.get_page,
    NotionHelper.get_database, NotionHelper.query_database,
    NotionHelper.create_page, NotionHelper.append_block,
    NotionHelper.argv_at, NotionHelper.print_all, NotionHelper.usage,
    Net.try_except, Net.io_bind, Net.lift, Net.ret, Net.raise, Net.print,
    Net.emit, Net.requests_get, Net.requests_post, Net.requests_patch,
    Net.requests_send, Net.response_json, net_after.

(** X21: without [NOTION_API_TOKEN] in the environment, or with an empty
    one, [main] prints the error line and exits with status 1 whatever the
    arguments; it sends no request. *)
Theorem main_without_token (p : NotionHelper.process) (w : Net.world) :
  NotionHelper.environ_token p = None
  \/ NotionHelper.environ_token p = Some EmptyString ->
  NotionHelper.main p w
  = (Json.Exc (Json.SystemExit 1),
     net_after w []
       [Net.Print "Error: NOTION_API_TOKEN environment variable not set"]).
Proof.
  intros [H|H]; run_main; rewrite H; cbn; now rewrite app_nil_r.
Qed.

Lemma main_without_token_witness :
  NotionHelper.main (cli None ["search"; "plan"]) (net0 failing)
  = (Json.Exc (Json.SystemExit 1),
     net_after (net0 failing) []
       [Net.Print "Error: NOTION_API_TOKEN environment variable not set"]).
Proof.
  apply (main_without_token (cli None ["search"; "plan"]) (net0 failing)).
  left. reflexivity.
Defined.

(** X22: with a token and no command, [main] prints the nine lines of the
    usage and exits with status 1; it sends no request. *)
Theorem main_without_command (p : NotionHelper.process) (w : Net.world)
        (tok : string) :
  NotionHelper.environ_token p = Some tok ->
  truthy tok = true ->
  (List.length (NotionHelper.argv p) < 2)%nat ->
  NotionHelper.main p w
  = (Json.Exc (Json.SystemExit 1),
     net_after w [] (map Net.Print NotionHelper.usage))
  /\ List.length NotionHelper.usage = 9%nat.
Proof.
  intros Ht Htok Hn. split; [|reflexivity].
  run_main. rewrite Ht, Htok. cbn [negb].
  apply Nat.ltb_lt in Hn. rewrite Hn. cbn.
  rewrite app_nil_r. repeat rewrite <- app_assoc. reflexivity.
Qed.

Lemma main_without_command_witness :
  NotionHelper.main (cli (Some "secret") []) (net0 failing)
  = (Json.Exc (Json.SystemExit 1),
     net_after (net0 failing) [] (map Net.Print NotionHelper.usage))
  /\ List.length NotionHelper.usage = 9%nat.
Proof.
  apply (main_without_command (cli (Some "secret") []) (net0 failing)
           "secret"); [reflexivity | reflexivity | cbn; lia].
Defined.

(** X23: with a token, a command that is none of the seven, or one of them
    with too few arguments, makes [main] print "Invalid command or missing
    arguments: <command>" and exit with status 1; it sends no request. *)
Theorem main_invalid_command (p : NotionHelper.process) (w : Net.world)
        (tok prog command : string) (args : list string) :
  NotionHelper.environ_token p = Some tok ->
  truthy tok = true ->
  NotionHelper.argv p = prog :: command :: args ->
  (required command = None
   \/ exists n, required command = Some n
                /\ (List.length (NotionHelper.argv p) < n)%nat) ->
  NotionHelper.main p w
  = (Json.Exc (Json.SystemExit 1),
     net_after w []
       [Net.Print ("Invalid command or missing arguments: " ++ command)]).
Proof.
  intros Ht Htok Ha Hr. run_main. rewrite Ht, Htok, Ha. cbn [negb].
  cbn [List.length Nat.ltb Nat.leb nth_error].
  rewrite Ha in Hr. unfold required in Hr. revert Hr.
  repeat match goal with
         | |- context [String.eqb command ?c] =>
             destruct (String.eqb_spec command c) as [->|_]
         end;
    cbn [andb List.length Nat.ltb Nat.leb];
    intros [H | (k & H & L)]; try discriminate;
    try (injection H as <-; cbn in L;
         repeat (destruct args as [|? args]; cbn in L; try lia));
    cbn; now rewrite app_nil_r.
Qed.

Lemma main_invalid_command_witness :
  NotionHelper.main (cli (Some "secret") ["create-page"; "db1"])
                    (net0 failing)
  = (Json.Exc (Json.SystemExit 1),
     net_after (net0 failing) []
       [Net.Print "Invalid command or missing arguments: create-page"])
  /\ NotionHelper.main (cli (Some "secret") ["delete-page"; "p1"])
                       (net0 failing)
     = (Json.Exc (Json.SystemExit 1),
        net_after (net0 failing) []
          [Net.Print "Invalid command or missing arguments: delete-page"]).
Proof.
  split.
  - apply (main_invalid_command (cli (Some "secret") ["create-page"; "db1"])
             (net0 failing) "secret" "notion_helper.py" "create-page"
             ["db1"]); try reflexivity.
    right. exists 4%nat. split; [reflexivity | cbn; lia].
  - apply (main_invalid_command (cli (Some "secret") ["delete-page"; "p1"])
             (net0 failing) "secret" "notion_helper.py" "delete-page"
             ["p1"]); try reflexivity.
    left. reflexivity.
Defined.

Lemma required_runnable (prog command : string) (args : list string)
      (n : nat) :
  required command = Some n ->
  (n <= List.length (prog :: command :: args))%nat ->
  runnable command args.
Proof.
  unfold required. intros Hr Hn. revert Hr.
  repeat match goal with
         | |- context [String.eqb command ?c] =>
             destruct (String.eqb_spec command c) as [->|_]
         end;
    intros Hr; try discriminate; injection Hr as <-; cbn in Hn;
    try (destruct args as [|a args]; [cbn in Hn; lia|]);
    try (destruct args as [|b args]; [cbn in Hn; lia|]);
    constructor.
Qed.

(** What [main] does with a command that has its arguments: one request,
    and an outcome that depends on the answer alone. *)
Lemma main_runs_command (p : NotionHelper.process) (w : Net.world)
      (tok prog command : string) (args : list string) (n : nat) :
  NotionHelper.environ_token p = Some tok ->
  truthy tok = true ->
  NotionHelper.argv p = prog :: command :: args ->
  required command = Some n ->
  (n <= List.length (NotionHelper.argv p))%nat ->
  exists rq,
    NotionHelper.main p w
    = match Net.server w rq with
      | Net.Answer r =>
          match Net.parsed r with
          | Some v => (Json.Ret tt, net_after w [rq] [Net.PrintJson v])
          | None =>
              if NotionHelper.decode_error_is_request_exception p
              then (Json.Exc (Json.SystemExit 1),
                    net_after w [rq]
                      [Net.PrintApiError Json.JSONDecodeError])
              else (Json.Exc Json.JSONDecodeError, net_after w [rq] [])
          end
      | Net.Failure msg =>
          (Json.Exc (Json.SystemExit 1),
           net_after w [rq]
             [Net.PrintApiError (Json.RequestException msg)])
      end
    /\ (Net.verb rq, Net.url rq) = route command (hd EmptyString args)
    /\ Net.headers rq = NotionHelper.headers (NotionHelper.new tok).
Proof.
  intros Ht Htok Ha Hr Hn. rewrite Ha in Hn.
  pose proof (required_runnable prog command args n Hr Hn) as R.
  clear Hr Hn.
  destruct R; eexists;
    (split;
     [ run_main; rewrite Ht, Htok, Ha; cbn [negb];
       cbn [List.length Nat.ltb Nat.leb nth_error];
       repeat match goal with
              | |- context [String.eqb ?x ?y] =>
                  let v := eval vm_compute in (String.eqb x y) in
                  change (String.eqb x y) with v
              end;
       cbn [andb];
       lazymatch goal with
       | |- ?lhs = ?rhs =>
           match rhs with
           | context [Net.server w ?e] =>
               is_evar e;
               match lhs with
               | context [Net.server w ?r] => unify e r
               end
           end
       end;
       (destruct (Net.server w _) as [r|msg];
        cbn [NotionHelper.is_request_exception];
        [destruct (Net.parsed r) as [v|];
         cbn [NotionHelper.is_request_exception];
         [|destruct (NotionHelper.decode_error_is_request_exception p)]|]);
       cbn; rewrite ?app_nil_r; reflexivity
     | split; reflexivity ]).
Qed.

(** X24: with a token and a command that has its arguments, [main] sends
    one request, to the URL of the command and with the token as bearer;
    when the answer has a JSON body, [main] prints that body and returns
    normally, whatever the status code of the answer. *)
Theorem main_prints_answer (p : NotionHelper.process) (w : Net.world)
        (tok prog command : string) (args : list string) (n : nat) :
  NotionHelper.environ_token p = Some tok ->
  truthy tok = true ->
  NotionHelper.argv p = prog :: command :: args ->
  required command = Some n ->
  (n <= List.length (NotionHelper.argv p))%nat ->
  exists rq,
    (Net.verb rq, Net.url rq) = route command (hd EmptyString args)
    /\ In ("Authorization", "Bearer " ++ tok) (Net.headers rq)
    /\ forall r v,
        Net.server w rq = Net.Answer r ->
        Net.parsed r = Some v ->
        NotionHelper.main p w
        = (Json.Ret tt, net_after w [rq] [Net.PrintJson v]).
Proof.
  intros Ht Htok Ha Hr Hn.
  destruct (main_runs_command p w tok prog command args n Ht Htok Ha Hr Hn)
    as (rq & Hm & Hroute & Hh).
  exists rq. split; [exact Hroute|]. split; [rewrite Hh; now left|].
  intros r v Hs Hp. now rewrite Hm, Hs, Hp.
Qed.

Lemma main_prints_answer_witness :
  exists rq,
    (Net.verb rq, Net.url rq)
    = (Net.GET, "https://api.notion.com/v1/pages/p1")
    /\ NotionHelper.main
         (cli (Some "secret") ["get-page"; "p1"])
         (net0 (answering 404 (Some (Json.JStr "not found"))))
       = (Json.Ret tt,
          net_after (net0 (answering 404 (Some (Json.JStr "not found"))))
            [rq] [Net.PrintJson (Json.JStr "not found")]).
Proof.
  destruct (main_prints_answer
              (cli (Some "secret") ["get-page"; "p1"])
              (net0 (answering 404 (Some (Json.JStr "not found"))))
              "secret" "notion_helper.py" "get-page" ["p1"] 3
              eq_refl eq_refl eq_refl eq_refl (le_n 3))
    as (rq & Hroute & _ & H).
  exists rq. split; [exact Hroute|].
  apply (H (Net.mkResponse 404 "body" (Some (Json.JStr "not found"))));
    reflexivity.
Defined.

(** X25: with a token and a command that has its arguments, a failure of
    the transport makes [main] print "API Error: ..." and exit with
    status 1; an answer that is not JSON does the same when the decoding
    error derives from [RequestException], and otherwise leaves [main]
    with that error uncaught. *)
Theorem main_reports_failure (p : NotionHelper.process) (w : Net.world)
        (tok prog command : string) (args : list string) (n : nat) :
  NotionHelper.environ_token p = Some tok ->
  truthy tok = true ->
  NotionHelper.argv p = prog :: command :: args ->
  required command = Some n ->
  (n <= List.length (NotionHelper.argv p))%nat ->
  exists rq,
    (Net.verb rq, Net.url rq) = route command (hd EmptyString args)
    /\ (forall msg,
          Net.server w rq = Net.Failure msg ->
          NotionHelper.main p w
          = (Json.Exc (Json.SystemExit 1),
             net_after w [rq]
               [Net.PrintApiError (Json.RequestException msg)]))
    /\ (forall r,
          Net.server w rq = Net.Answer r ->
          Net.parsed r = None ->
          NotionHelper.main p w
          = if NotionHelper.decode_error_is_request_exception p
            then (Json.Exc (Json.SystemExit 1),
                  net_after w [rq]
                    [Net.PrintApiError Json.JSONDecodeError])
            else (Json.Exc Json.JSONDecodeError, net_after w [rq] [])).
Proof.
  intros Ht Htok Ha Hr Hn.
  destruct (main_runs_command p w tok prog command args n Ht Htok Ha Hr Hn)
    as (rq & Hm & Hroute & _).
  exists rq. split; [exact Hroute|]. split.
  - intros msg Hs. now rewrite Hm, Hs.
  - intros r Hs Hp. now rewrite Hm, Hs, Hp.
Qed.

Lemma main_reports_failure_witness :
  (exists rq,
      (Net.verb rq, Net.url rq)
      = (Net.POST, "https://api.notion.com/v1/search")
      /\ NotionHelper.main (cli (Some "secret") ["search"; "plan"])
                           (net0 failing)
         = (Json.Exc (Json.SystemExit 1),
            net_after (net0 failing) [rq]
              [Net.PrintApiError
                 (Json.RequestException "connection refused")]))
  /\ (exists rq,
        NotionHelper.main (cli (Some "secret") ["search"; "plan"])
                          (net0 (answering 200 None))
        = (Json.Exc (Json.SystemExit 1),
           net_after (net0 (answering 200 None)) [rq]
             [Net.PrintApiError Json.JSONDecodeError])).
Proof.
  split.
  - destruct (main_reports_failure
                (cli (Some "secret") ["search"; "plan"]) (net0 failing)
                "secret" "notion_helper.py" "search" ["plan"] 3
                eq_refl eq_refl eq_refl eq_refl (le_n 3))
      as (rq & Hroute & Hf & _).
    exists rq. split; [exact Hroute|].
    apply (Hf "connection refused"). reflexivity.
  - destruct (main_reports_failure
                (cli (Some "secret") ["search"; "plan"])
                (net0 (answering 200 None))
                "secret" "notion_helper.py" "search" ["plan"] 3
                eq_refl eq_refl eq_refl eq_refl (le_n 3))
      as (rq & _ & _ & Hd).
    exists rq.
    apply (Hd (Net.mkResponse 200 "body" None)); reflexivity.
Defined.

(** X26: [query_database] leaves a falsy filter out: with no filter, or
    with one that is falsy (the empty object, say), the body posted is
    [{}]; with a truthy filter it is [{"filter": filter}]. *)
Theorem query_database_filter (self : NotionHelper.NotionClient)
        (database_id : string) (filter_obj : option Json.json)
        (w : Net.world) :
  let request data :=
    Net.mkRequest Net.POST
      (NotionHelper.base_url self ++ "/databases/" ++ database_id
       ++ "/query")
      (NotionHelper.headers self) (Some data) in
  (filter_obj = None
   \/ (exists f, filter_obj = Some f /\ Json.truth f = false) ->
   snd (NotionHelper.query_database self database_id filter_obj w)
   = net_after w [request (Json.JDict [])] [])
  /\ (forall f,
        filter_obj = Some f -> Json.truth f = true ->
        snd (NotionHelper.query_database self database_id filter_obj w)
        = net_after w [request (Json.JDict [("filter", f)])] []).
Proof.
  cbv zeta. split.
  - intros [-> | (f & -> & Hf)];
      unfold NotionHelper.query_database, Net.io_bind, Net.requests_post,
        Net.requests_send, Net.lift, net_after;
      rewrite ?Hf, app_nil_r; cbv zeta;
      destruct (Net.server w _) as [r|msg]; reflexivity.
  - intros f -> Hf.
    unfold NotionHelper.query_database, Net.io_bind, Net.requests_post,
      Net.requests_send, Net.lift, net_after.
    rewrite Hf, app_nil_r. cbv zeta.
    destruct (Net.server w _) as [r|msg]; reflexivity.
Qed.

Lemma query_database_filter_witness :
  snd (NotionHelper.query_database (NotionHelper.new "secret") "db1"
         (Some (Json.JDict [])) (net0 failing))
  = net_after (net0 failing)
      [Net.mkRequest Net.POST
         "https://api.notion.com/v1/databases/db1/query"
         (NotionHelper.headers (NotionHelper.new "secret"))
         (Some (Json.JDict []))] []
  /\ snd (NotionHelper.query_database (NotionHelper.new "secret") "db1"
            (Some (Json.JDict [("property", Json.JStr "Tags")]))
            (net0 failing))
     = net_after (net0 failing)
         [Net.mkRequest Net.POST
            "https://api.notion.com/v1/databases/db1/query"
            (NotionHelper.headers (NotionHelper.new "secret"))
            (Some (Json.JDict
                     [("filter",
                       Json.JDict [("property", Json.JStr "Tags")])]))] [].
Proof.
  split.
  - apply (proj1 (query_database_filter (NotionHelper.new "secret") "db1"
                    (Some (Json.JDict [])) (net0 failing))).
    right. exists (Json.JDict []). split; reflexivity.
  - apply (proj2 (query_database_filter (NotionHelper.new "secret") "db1"
                    (Some (Json.JDict [("property", Json.JStr "Tags")]))
                    (net0 failing))
                 (Json.JDict [("property", Json.JStr "Tags")]));
      reflexivity.
Defined.
